(** * Baidu geocoders of geopy: request construction, response parsing and
      status validation

    A shallow embedding of [geopy/geocoders/baiduv1.py] and
    [geopy/geocoders/baiduv2.py].  Decoded JSON is a tree of Python values;
    methods run in a monad that threads the state of the network, records
    the logging calls and the requests handed to the transport, and may
    raise.  The collaborators that live outside the two files (transport,
    URL encoding, point coercion, text-to-float conversion) are the fields
    of a [Platform] class. *)

From Stdlib Require Import ZArith Ascii String List.
From Stdlib Require Import Floats.SpecFloat.
From stdpp Require Import base option gmap strings.

Set Warnings "-register-all".
Set Default Proof Using "Type".

Open Scope string_scope.
Open Scope Z_scope.

(** ** Python values and the builtin operations the geocoders use *)

Module Py.

(** What [json.loads] produces (and what callers pass for untyped
    arguments such as [city] or [timeout]).  A float is an IEEE-754
    binary64 datum. *)
Inductive value : Type :=
  | PNone
  | PBool (b : bool)
  | PInt (z : Z)
  | PFloat (f : spec_float)
  | PStr (s : string)
  | PList (l : list value)
  | PDict (d : gmap string value).

(** Exceptions.  [Other] stands for whatever a collaborator raises
    (time-outs, encoding errors, ...); [Unmodelled] marks a [%]
    conversion outside the fragment of [str_mod] below. *)
Inductive exn : Type :=
  | KeyError (key : string)
  | TypeError
  | AttributeError
  | ValueError
  | OverflowError
  | GeocoderQueryError (msg : string)
  | Unmodelled
  | Other (name msg : string).

Definition prec : Z := 53.
Definition emax : Z := 1024.

(** [bool(v)] *)
Definition truthy (v : value) : bool :=
  match v with
  | PNone => false
  | PBool b => b
  | PInt z => negb (z =? 0)
  | PFloat (S754_zero _) => false
  | PFloat _ => true
  | PStr s => negb (String.length s =? 0)%nat
  | PList l => negb (length l =? 0)%nat
  | PDict d => negb (size d =? 0)%nat
  end.

(** [a or b] and [a and b] on already evaluated operands. *)
Definition or_ (a b : value) : value := if truthy a then a else b.
Definition and_ (a b : value) : value := if truthy a then b else a.

(** [v.get(k, dflt)]: only dicts have the method. *)
Definition get (v : value) (k : string) (dflt : value) : exn + value :=
  match v with
  | PDict d => inr (default dflt (d !! k))
  | _ => inl AttributeError
  end.

(** [v[k]] for a text key. *)
Definition getitem (v : value) (k : string) : exn + value :=
  match v with
  | PDict d => match d !! k with
               | Some x => inr x
               | None => inl (KeyError k)
               end
  | _ => inl TypeError
  end.

(** [len(v)] *)
Definition len (v : value) : exn + nat :=
  match v with
  | PStr s => inr (String.length s)
  | PList l => inr (length l)
  | PDict d => inr (size d)
  | _ => inl TypeError
  end.

(** The exact value of a float against an integer, as [==] compares
    them. *)
Definition float_eq_int (f : spec_float) (n : Z) : bool :=
  match f with
  | S754_zero _ => n =? 0
  | S754_finite s m e =>
      let v := if s then Z.neg m else Z.pos m in
      if 0 <=? e then v * 2 ^ e =? n else v =? n * 2 ^ (- e)
  | _ => false
  end.

(** [v == n] for an integer literal [n], and [v == s] for a text
    literal [s]. *)
Definition eq_int (v : value) (n : Z) : bool :=
  match v with
  | PInt z => z =? n
  | PBool b => Z.b2z b =? n
  | PFloat f => float_eq_int f n
  | _ => false
  end.

Definition eq_str (v : value) (s : string) : bool :=
  match v with
  | PStr s' => bool_decide (s' = s)
  | _ => false
  end.

(** [float(v)]; the conversion of text is the platform's
    ([None] is a [ValueError]). *)
Definition float (float_of_str : string -> option spec_float)
    (v : value) : exn + spec_float :=
  match v with
  | PFloat f => inr f
  | PInt z =>
      match binary_normalize prec emax z 0 false with
      | S754_infinity _ => inl OverflowError
      | f => inr f
      end
  | PBool b => inr (binary_normalize prec emax (Z.b2z b) 0 false)
  | PStr s => match float_of_str s with
              | Some f => inr f
              | None => inl ValueError
              end
  | _ => inl TypeError
  end.

Definition prepend (s : string) (r : exn + string) : exn + string :=
  match r with
  | inr t => inr (s ++ t)
  | inl e => inl e
  end.

(** [fmt % args] for text arguments ([args] is the tuple; a single
    text argument is a one-element tuple).  Covered: literal text,
    [%%], [%s]; the numeric conversions and mapping keys, which reject
    text; a dangling [%]; unknown conversion characters, for which the
    next argument is taken first ([TypeError] when none is left) and
    the character refused after ([ValueError]).  Flags, widths,
    precisions and [%r], [%c] are [Unmodelled]. *)
Fixpoint str_mod (fmt : string) (args : list string) : exn + string :=
  match fmt with
  | EmptyString =>
      match args with
      | [] => inr ""
      | _ :: _ => inl TypeError
      end
  | String c rest =>
      if Ascii.eqb c "%"%char then
        match rest with
        | EmptyString => inl ValueError
        | String k rest' =>
            if Ascii.eqb k "%"%char then prepend "%" (str_mod rest' args)
            else if Ascii.eqb k "s"%char then
              match args with
              | a :: args' => prepend a (str_mod rest' args')
              | [] => inl TypeError
              end
            else if existsb (Ascii.eqb k) (list_ascii_of_string "diouxXeEfFgG(")
            then inl TypeError
            else if existsb (Ascii.eqb k)
                      (list_ascii_of_string "#0123456789- +*.hlLrc")
            then inl Unmodelled
            else
              match args with
              | [] => inl TypeError
              | _ :: _ => inl ValueError
              end
        end
      else prepend (String c "") (str_mod rest args)
  end.

End Py.
Import Py.

#[global] Instance exn_ret : MRet (sum exn) := λ A x, inr x.
#[global] Instance exn_bind : MBind (sum exn) := λ A B f m,
  match m with
  | inr x => f x
  | inl e => inl e
  end.

(** ** Collaborators, effects and shared records *)

(** The query of [reverse], as its docstring types it: a
    [geopy.point.Point], a list or tuple of (latitude, longitude), or
    text of the form "%(latitude)s, %(longitude)s". *)
Inductive point_like : Type :=
  | PointObj (latitude longitude : spec_float)
  | PointSeq (items : list value)
  | PointText (s : string).

Module Geocoder.

(** Modelled from the spec: the configuration of an instance, which the
    base class [geopy.geocoders.base.Geocoder] (not among the sources)
    holds: output template, scheme, default time-out and proxy map. *)
Record t : Type := {
  format_string : string;
  scheme : string;
  timeout : value;
  proxies : value
}.

(** Modelled from the spec: the constructor of the base class, which
    stores its four arguments on the instance. *)
Definition __init__ (format_string scheme : string)
    (timeout proxies : value) : t :=
  {| format_string := format_string; scheme := scheme;
     timeout := timeout; proxies := proxies |}.

End Geocoder.

(** Modelled from the spec: [geopy.location.Location] (not among the
    sources), the normalized triple of display label, coordinate pair
    and raw provider payload. *)
Record Location : Type := {
  address : value;
  point : value * value;
  raw : value
}.

(** Modelled from the spec: the coordinate pair of a Result, by section
    3 of the specification "(latitude, longitude) as floating point, or
    absent when the provider returns null/zero values for either axis":
    a pair of two floats is kept, any other pair (one with a [None]
    axis, for one) is absent, that is [None] on both axes. *)
Definition normalized (pt : value * value) : value * value :=
  match pt with
  | (PFloat f, PFloat g) => (PFloat f, PFloat g)
  | _ => (PNone, PNone)
  end.

(** Modelled from the spec: the constructor [Location(address, point,
    raw)] of [geopy.location] (not among the sources), which keeps the
    label and the raw payload as given and normalizes the pair. *)
Definition new_Location (address : value) (pt : value * value) (raw : value)
    : Location :=
  {| address := address; point := normalized pt; raw := raw |}.

(** What lies outside the two source files.  [World] is the state of the
    network as the transport sees it; [_call_geocoder] is the inherited
    method that fetches a URL and decodes the JSON body. *)
Class Platform : Type := {
  World : Type;
  DEFAULT_TIMEOUT : value;
  float_of_str : string → option spec_float;
  urlencode : gmap string value → exn + string;
  _call_geocoder : Geocoder.t → string → value → World → World * (exn + value);
  _coerce_point_to_string : point_like → exn + string
}.

(** The default output template; the constructors' docstring: "The
    default is just '%s'". *)
Definition DEFAULT_FORMAT_STRING : string := "%s".

Inductive level : Type := DEBUG | WARNING.

(** What a call leaves behind: the [logger] calls it made and the
    requests it handed to the transport, in order. *)
Inductive event : Type :=
  | Log (lvl : level) (msg : value) (args : list value)
  | Request (url : string) (timeout : value).

Record outcome `{Platform} (A : Type) : Type := Outcome {
  world_after : World;
  trace : list event;
  result : exn + A
}.
Arguments Outcome {_ _} _ _ _.
Arguments world_after {_ _} _.
Arguments trace {_ _} _.
Arguments result {_ _} _.

Definition M `{Platform} (A : Type) : Type := World → outcome A.

#[global] Instance M_ret `{Platform} : MRet M := λ A x w, Outcome w [] (inr x).
#[global] Instance M_bind `{Platform} : MBind M := λ A B f m w,
  let o := m w in
  match result o with
  | inr x =>
      let o' := f x (world_after o) in
      Outcome (world_after o') (trace o ++ trace o') (result o')
  | inl e => Outcome (world_after o) (trace o) (inl e)
  end.

Definition lift `{Platform} {A : Type} (r : exn + A) : M A :=
  λ w, Outcome w [] r.

Definition log `{Platform} (lvl : level) (msg : value) (args : list value)
    : M unit :=
  λ w, Outcome w [Log lvl msg args] (inr tt).

Definition call_geocoder `{Platform} (self : Geocoder.t) (url : string)
    (timeout : value) : M value :=
  λ w, let '(w', r) := _call_geocoder self url timeout w in
       Outcome w' [Request url timeout] r.

(** The requests among the events of a trace. *)
Definition requests (evs : list event) : list (string * value) :=
  omap (λ ev, match ev with
              | Request url t => Some (url, t)
              | Log _ _ _ => None
              end) evs.

(** ** [geopy/geocoders/baiduv1.py] *)

Module BaiduV1.

Record t : Type := {
  base : Geocoder.t;
  key : string;
  api : string
}.

Section Methods.
Context `{Platform}.

Definition __init__ (key : string) (format_string scheme : option string)
    (timeout proxies : option value) : exn + t :=
  let format_string := default DEFAULT_FORMAT_STRING format_string in
  let scheme := default "http" scheme in
  let timeout := default DEFAULT_TIMEOUT timeout in
  let proxies := default PNone proxies in
  let base := Geocoder.__init__ format_string scheme timeout proxies in
  api ← str_mod "%s://api.map.baidu.com/geocoder" [base.(Geocoder.scheme)];
  mret {| base := base; key := key; api := api |}.

Definition _check_status (status : value) : exn + unit :=
  if eq_str status "OK" then
    inr tt
  else if eq_int status 1 then
    inl (GeocoderQueryError "Server internal error.")
  else if eq_str status "INVILID_KEY" then
    inl (GeocoderQueryError "Invalid key.")
  else if eq_str status "INVALID_PARAMETERS" then
    inl (GeocoderQueryError "INVALID PARAMETERS.")
  else
    inl (GeocoderQueryError "Unknown error.").

(** The inner function of [_parse_json]. *)
Definition parse_result (result : value) : exn + Location :=
  result ← getitem result "result";
  address ← get result "formatted_address" PNone;
  location ← getitem result "location";
  lat ← getitem location "lat";
  let latitude := or_ lat PNone in
  location ← getitem result "location";
  lng ← getitem location "lng";
  let longitude := or_ lng PNone in
  '(latitude, longitude) ←
    (if truthy (and_ latitude longitude) then
       flat ← float float_of_str latitude;
       flng ← float float_of_str longitude;
       mret (PFloat flat, PFloat flng)
     else mret (latitude, longitude));
  mret (new_Location address (latitude, longitude) result).

Definition _parse_json (self : t) (response : value)
    (exactly_one : option bool) : M (option Location) :=
  let exactly_one := default true exactly_one in
  log DEBUG response [];;
  result ← lift (get response "result" (PList []));
  n ← lift (len result);
  if (n =? 0)%nat then
    status ← lift (get response "status" PNone);
    lift (_check_status status);;
    mret None
  else
    loc ← lift (parse_result response);
    mret (Some loc).

(** Lines 75-82 of [geocode]: the parameter dict. *)
Definition geocode_params (self : t) (query : string) (city : value)
    : exn + gmap string value :=
  address ← str_mod self.(base).(Geocoder.format_string) [query];
  let params : gmap string value :=
    <["key" := PStr self.(key)]>
      (<["output" := PStr "json"]> (<["address" := PStr address]> ∅)) in
  let params := if truthy city then <["city" := city]> params else params in
  mret params.

Definition geocode (self : t) (query : string) (city : option value)
    (exactly_one : option bool) (timeout : option value)
    : M (option Location) :=
  let city := default PNone city in
  let exactly_one := default true exactly_one in
  let timeout := default PNone timeout in
  params ← lift (geocode_params self query city);
  qs ← lift (urlencode params);
  let url := self.(api) ++ "?" ++ qs in
  log DEBUG (PStr "%s.geocode: %s") [PStr "BaiduV1"; PStr url];;
  response ← call_geocoder self.(base) url timeout;
  _parse_json self response (Some exactly_one).

(** Lines 106-110 of [reverse]: the parameter dict. *)
Definition reverse_params (self : t) (query : point_like)
    : exn + gmap string value :=
  location ← _coerce_point_to_string query;
  mret (<["key" := PStr self.(key)]>
          (<["output" := PStr "json"]>
             (<["location" := PStr location]> ∅))).

Definition reverse (self : t) (query : point_like)
    (exactly_one : option bool) (timeout : option value)
    : M (option Location) :=
  let exactly_one := default true exactly_one in
  let timeout := default PNone timeout in
  params ← lift (reverse_params self query);
  qs ← lift (urlencode params);
  url ← lift (str_mod "%s?%s" [self.(api); qs]);
  log DEBUG (PStr "%s.reverse: %s") [PStr "BaiduV1"; PStr url];;
  response ← call_geocoder self.(base) url timeout;
  _parse_json self response (Some exactly_one).

End Methods.

End BaiduV1.

(** ** [geopy/geocoders/baiduv2.py] *)

Module BaiduV2.

Record t : Type := {
  base : Geocoder.t;
  ak : string;
  api : string
}.

Section Methods.
Context `{Platform}.

Definition __init__ (ak : string) (format_string scheme : option string)
    (timeout proxies : option value) : exn + t :=
  let format_string := default DEFAULT_FORMAT_STRING format_string in
  let scheme := default "http" scheme in
  let timeout := default DEFAULT_TIMEOUT timeout in
  let proxies := default PNone proxies in
  let base := Geocoder.__init__ format_string scheme timeout proxies in
  api ← str_mod "%s://api.map.baidu.com/geocoder/v2/"
          [base.(Geocoder.scheme)];
  mret {| base := base; ak := ak; api := api |}.

Definition _check_status (status : value) : exn + unit :=
  if eq_int status 0 then
    inr tt
  else if eq_int status 1 then
    inl (GeocoderQueryError "Server internal error.")
  else if eq_int status 2 then
    inl (GeocoderQueryError "Invalid request.")
  else if eq_int status 3 then
    inl (GeocoderQueryError "Permission validation failed.")
  else if eq_int status 4 then
    inl (GeocoderQueryError "Quota validation failed.")
  else if eq_int status 5 then
    inl (GeocoderQueryError "Invalid ak.")
  else if eq_int status 101 then
    inl (GeocoderQueryError "Service disabled.")
  else if eq_int status 102 then
    inl (GeocoderQueryError
           "Failed to pass the whitelist or wrong security code.")
  else
    inl (GeocoderQueryError "Unknown error.").

(** The inner function of [_parse_json]. *)
Definition parse_result (result : value) : exn + Location :=
  level ← getitem result "level";
  location ← getitem result "location";
  lat ← getitem location "lat";
  let latitude := or_ lat PNone in
  location ← getitem result "location";
  lng ← getitem location "lng";
  let longitude := or_ lng PNone in
  '(latitude, longitude) ←
    (if truthy (and_ latitude longitude) then
       flat ← float float_of_str latitude;
       flng ← float float_of_str longitude;
       mret (PFloat flat, PFloat flng)
     else mret (latitude, longitude));
  mret (new_Location level (latitude, longitude) result).

Definition _parse_json (self : t) (response : value)
    (exactly_one : option bool) : M (option Location) :=
  let exactly_one := default true exactly_one in
  log WARNING response [];;
  result ← lift (get response "results" (PList []));
  n ← lift (len result);
  if (n =? 0)%nat then
    status ← lift (get response "status" PNone);
    lift (_check_status status);;
    mret None
  else
    loc ← lift (parse_result response);
    mret (Some loc).

(** Lines 75-82 of [geocode]: the parameter dict. *)
Definition geocode_params (self : t) (query : string) (city : value)
    : exn + gmap string value :=
  address ← str_mod self.(base).(Geocoder.format_string) [query];
  let params : gmap string value :=
    <["ak" := PStr self.(ak)]>
      (<["output" := PStr "json"]> (<["address" := PStr address]> ∅)) in
  let params := if truthy city then <["city" := city]> params else params in
  mret params.

Definition geocode (self : t) (query : string) (city : option value)
    (exactly_one : option bool) (timeout : option value)
    : M (option Location) :=
  let city := default PNone city in
  let exactly_one := default true exactly_one in
  let timeout := default PNone timeout in
  params ← lift (geocode_params self query city);
  qs ← lift (urlencode params);
  let url := self.(api) ++ "?" ++ qs in
  log DEBUG (PStr "%s.geocode: %s") [PStr "BaiduV2"; PStr url];;
  response ← call_geocoder self.(base) url timeout;
  _parse_json self response (Some exactly_one).

(** Lines 106-111 of [reverse]: the parameter dict. *)
Definition reverse_params (self : t) (query : point_like)
    (coordtype : value) : exn + gmap string value :=
  location ← _coerce_point_to_string query;
  mret (<["ak" := PStr self.(ak)]>
          (<["output" := PStr "json"]>
             (<["coordtype" := coordtype]>
                (<["location" := PStr location]> ∅)))).

Definition reverse (self : t) (query : point_like)
    (coordtype : option value) (exactly_one : option bool)
    (timeout : option value) : M (option Location) :=
  let coordtype := default (PStr "bd09ll") coordtype in
  let exactly_one := default true exactly_one in
  let timeout := default PNone timeout in
  params ← lift (reverse_params self query coordtype);
  qs ← lift (urlencode params);
  url ← lift (str_mod "%s?%s" [self.(api); qs]);
  log DEBUG (PStr "%s.reverse: %s") [PStr "BaiduV2"; PStr url];;
  response ← call_geocoder self.(base) url timeout;
  _parse_json self response (Some exactly_one).

End Methods.

End BaiduV2.

(** ** A stand-in platform for closed examples *)

(** The network is a queue of canned responses; text never converts to a
    float; the encoder joins [key=value] pairs without escaping; only
    preformatted text is accepted as a point. *)
Module Canned.

Definition call (self : Geocoder.t) (url : string) (timeout : value)
    (w : list value) : list value * (exn + value) :=
  match w with
  | r :: w' => (w', inr r)
  | [] => ([], inl (Other "GeocoderServiceError" "no response"))
  end.

Definition text (v : value) : string :=
  match v with
  | PStr s => s
  | _ => ""
  end.

Definition encode (params : gmap string value) : exn + string :=
  inr (String.concat "&"
         (map (λ kv, kv.1 ++ "=" ++ text kv.2) (map_to_list params))).

Definition coerce (p : point_like) : exn + string :=
  match p with
  | PointText s => inr s
  | _ => inl ValueError
  end.

Definition platform : Platform := {|
  World := list value;
  DEFAULT_TIMEOUT := PInt 1;
  float_of_str := λ _, None;
  urlencode := encode;
  _call_geocoder := call;
  _coerce_point_to_string := coerce
|}.

End Canned.

(** ** Sample instances and payloads *)

Module Examples.

(** 39.5 and 116.25 as binary64. *)
Definition f39_5 : spec_float := S754_finite false 5559130790035456 (-47).
Definition f116_25 : spec_float := S754_finite false 8180366510653440 (-46).

Definition v1 : BaiduV1.t :=
  {| BaiduV1.base := Geocoder.__init__ "%s" "http" (PInt 1) PNone;
     BaiduV1.key := "k";
     BaiduV1.api := "http://api.map.baidu.com/geocoder" |}.

Definition v2 : BaiduV2.t :=
  {| BaiduV2.base := Geocoder.__init__ "%s" "http" (PInt 1) PNone;
     BaiduV2.ak := "k";
     BaiduV2.api := "http://api.map.baidu.com/geocoder/v2/" |}.

Definition location (lat lng : value) : value :=
  PDict {[ "lat" := lat; "lng" := lng ]}.

Definition v1_result (lat lng : value) : value :=
  PDict {[ "formatted_address" := PStr "x";
           "location" := location lat lng ]}.

(** [{"status": "OK", "result": {"formatted_address": "x",
      "location": {"lat": ..., "lng": ...}}}] *)
Definition v1_payload (lat lng : value) : value :=
  PDict {[ "status" := PStr "OK"; "result" := v1_result lat lng ]}.

(** What the first version returns on [v1_payload 39 116]: 39.0 and
    116.0 as binary64. *)
Definition v1_located : Location :=
  {| address := PStr "x";
     point := (PFloat (S754_finite false 5488762045857792 (-47)),
               PFloat (S754_finite false 8162774324609024 (-46)));
     raw := v1_result (PInt 39) (PInt 116) |}.

Definition v2_entry (lat lng : value) : value :=
  PDict {[ "level" := PStr "street"; "location" := location lat lng ]}.

(** [{"status": 0, "results": [{"level": "street", "location": ...}]}],
    the shape of section 6 of the specification. *)
Definition v2_payload (lat lng : value) : value :=
  PDict {[ "status" := PInt 0; "results" := PList [v2_entry lat lng] ]}.

(** [{"status": 0, "results": [{}], "level": "street",
      "location": {"lat": ..., "lng": ...}}]: label and location at
    the top level, where [BaiduV2.parse_result] reads them. *)
Definition v2_flat_payload (lat lng : value) : value :=
  PDict {[ "status" := PInt 0; "results" := PList [PDict ∅];
           "level" := PStr "street"; "location" := location lat lng ]}.

(** [{"status": ..., "result": []}] and [{"status": ..., "results": []}] *)
Definition v1_empty (status : value) : gmap string value :=
  {[ "status" := status; "result" := PList [] ]}.

Definition v2_empty (status : value) : gmap string value :=
  {[ "status" := status; "results" := PList [] ]}.

End Examples.

(** ** Further samples *)

Module Samples.

Import Examples.

(** The objects of [v1_result] and [v1_payload], as dicts. *)
Definition v1_result_dict (lat lng : value) : gmap string value :=
  {[ "formatted_address" := PStr "x"; "location" := location lat lng ]}.

Definition v1_dict (lat lng : value) : gmap string value :=
  {[ "status" := PStr "OK"; "result" := PDict (v1_result_dict lat lng) ]}.

(** The object of [v2_flat_payload], as a dict. *)
Definition v2_flat_dict (lat lng : value) : gmap string value :=
  {[ "status" := PInt 0; "results" := PList [PDict ∅];
     "level" := PStr "street"; "location" := location lat lng ]}.

(** 39.0 and 116.0 as binary64. *)
Definition f39 : spec_float := S754_finite false 5488762045857792 (-47).
Definition f116 : spec_float := S754_finite false 8162774324609024 (-46).

(** [{"status": "OK", "result": [{"level": ..., "location": ...}]}]: a
    list where the first version expects an object. *)
Definition v1_list_dict : gmap string value :=
  {[ "status" := PStr "OK";
     "result" := PList [v2_entry (PInt 39) (PInt 116)] ]}.

(** [{"status": "INVILID_KEY", "result": null}] *)
Definition v1_null_dict : gmap string value :=
  {[ "status" := PStr "INVILID_KEY"; "result" := PNone ]}.

(** An instance with the template of the constructor's docstring, and
    one whose template has no slot. *)
Definition v1_mountain_view : BaiduV1.t :=
  {| BaiduV1.base :=
       Geocoder.__init__ "%s, Mountain View, CA" "http" (PInt 1) PNone;
     BaiduV1.key := "k";
     BaiduV1.api := "http://api.map.baidu.com/geocoder" |}.

Definition v1_no_slot : BaiduV1.t :=
  {| BaiduV1.base := Geocoder.__init__ "Mountain View, CA" "http" (PInt 1) PNone;
     BaiduV1.key := "k";
     BaiduV1.api := "http://api.map.baidu.com/geocoder" |}.

End Samples.

(** ** Vocabulary of the statements *)

(** [needle] occurs in [msg]. *)
Definition contains (needle msg : string) : Prop :=
  ∃ pre post, msg = pre ++ needle ++ post.

(** The collection that [_parse_json] measures: the entry under the root
    field, or the empty list when the field is missing. *)
Definition collection (root : string) (d : gmap string value) : value :=
  default (PList []) (d !! root).

(** The status that [_parse_json] hands to [_check_status]. *)
Definition status_of (d : gmap string value) : value :=
  default PNone (d !! "status").

(** The numeric status codes of the second API version that are
    rejected, with the cause each one reports. *)
Definition v2_rejections : list (Z * string) :=
  [ (1, "Server internal error.");
    (2, "Invalid request.");
    (3, "Permission validation failed.");
    (4, "Quota validation failed.");
    (5, "Invalid ak.");
    (101, "Service disabled.");
    (102, "Failed to pass the whitelist or wrong security code.") ].

Definition v2_known_codes : list Z := 0 :: v2_rejections.*1.

(** The raw axes of a payload, where each version looks for them. *)
Definition v1_axes (response : value) : exn + (value * value) :=
  res ← getitem response "result";
  location ← getitem res "location";
  lat ← getitem location "lat";
  lng ← getitem location "lng";
  mret (lat, lng).

Definition v2_axes (response : value) : exn + (value * value) :=
  location ← getitem response "location";
  lat ← getitem location "lat";
  lng ← getitem location "lng";
  mret (lat, lng).

Definition is_float (v : value) : Prop := ∃ f, v = PFloat f.

Definition pair_present (p : value * value) : Prop :=
  is_float p.1 ∧ is_float p.2.


(** How the pair that [parse_result] hands to the constructor of
    [Location] follows from the raw axes. *)
Inductive coordinates `{Platform} (lat lng : value) : value * value → Prop :=
  | coordinates_both f g :
      truthy lat = true → truthy lng = true →
      float float_of_str lat = inr f → float float_of_str lng = inr g →
      coordinates lat lng (PFloat f, PFloat g)
  | coordinates_neither :
      truthy lat = false → truthy lng = false →
      coordinates lat lng (PNone, PNone)
  | coordinates_latitude_only :
      truthy lat = true → truthy lng = false →
      coordinates lat lng (lat, PNone)
  | coordinates_longitude_only :
      truthy lat = false → truthy lng = true →
      coordinates lat lng (PNone, lng).

(** A response with a non-empty collection on which [_parse_json] stops
    at the absent key [k] with an unhandled [KeyError]. *)
Definition v1_stops_at_missing `{Platform} (self : BaiduV1.t)
    (eo : option bool) (w : World) (k : string) : Prop :=
  ∃ d n, len (collection "result" d) = inr (S n) ∧
         v1_axes (PDict d) = inl (KeyError k) ∧
         result (BaiduV1._parse_json self (PDict d) eo w) = inl (KeyError k).

Definition v2_stops_at_missing `{Platform} (self : BaiduV2.t)
    (eo : option bool) (w : World) (k : string) : Prop :=
  ∃ d n, len (collection "results" d) = inr (S n) ∧
         d !! k = None ∧
         result (BaiduV2._parse_json self (PDict d) eo w) = inl (KeyError k).

(** The parameter dict of [geocode]: address, output format and
    credential under its version's name, [city] exactly when one was
    passed and is truthy, and nothing else. *)
Definition geocode_params_spec (credential_name credential address : string)
    (city : option value) (params : gmap string value) : Prop :=
  params !! "address" = Some (PStr address) ∧
  params !! "output" = Some (PStr "json") ∧
  params !! credential_name = Some (PStr credential) ∧
  params !! "city" =
    match city with
    | Some c => if truthy c then Some c else None
    | None => None
    end ∧
  ∀ k, k ∉ ["address"; "output"; credential_name; "city"] → params !! k = None.

(** The parameter dict of [reverse]; [coordtype] is the entry under that
    name, if the version has one. *)
Definition reverse_params_spec (credential_name credential location : string)
    (coordtype : option value) (params : gmap string value) : Prop :=
  params !! "location" = Some (PStr location) ∧
  params !! "output" = Some (PStr "json") ∧
  params !! credential_name = Some (PStr credential) ∧
  params !! "coordtype" = coordtype ∧
  ∀ k, k ∉ ["location"; "output"; credential_name; "coordtype"] →
       params !! k = None.

(** JSON values that have no length: null, booleans and numbers. *)
Definition scalar (v : value) : bool :=
  match v with
  | PNone | PBool _ | PInt _ | PFloat _ => true
  | PStr _ | PList _ | PDict _ => false
  end.

(** A parse result with the raw payload of its Result, if any, replaced. *)
Definition with_raw (raw' : value) (r : exn + option Location)
    : exn + option Location :=
  match r with
  | inr (Some loc) =>
      inr (Some {| address := address loc; point := point loc; raw := raw' |})
  | _ => r
  end.

(** Text without a conversion specifier. *)
Definition plain (s : string) : Prop :=
  "%"%char ∉ list_ascii_of_string s.

(** The float conversion of a truthy pair of axes fails with [e]: on
    the latitude, or on the longitude after the latitude converted. *)
Definition conversion_error `{Platform} (lat lng : value) (e : exn) : Prop :=
  float float_of_str lat = inl e ∨
  ∃ f, float float_of_str lat = inr f ∧ float float_of_str lng = inl e.

(** The logging call that [geocode] and [reverse] make before they hand
    the URL to the transport. *)
Definition url_log (cls method url : string) : event :=
  Log DEBUG (PStr ("%s." ++ method ++ ": %s")) [PStr cls; PStr url].

(** The events of a call whose request the transport answered with
    [answer]: the URL is logged, then requested, and a decoded response
    is logged by [_parse_json] at [lvl]. *)
Definition call_events (cls method url : string) (timeout : value)
    (lvl : level) (answer : exn + value) : list event :=
  url_log cls method url :: Request url timeout ::
  match answer with
  | inr response => [Log lvl response []]
  | inl _ => []
  end.

(** * Properties *)

(** ** Running the effect monad *)

(** Unfolds the monad operations so that a run reduces to its outcome. *)
Ltac run :=
  unfold mbind, mret, M_bind, M_ret, exn_bind, exn_ret, lift, log,
    call_geocoder in *;
  simpl in *.


(** ** What [_parse_json] computes *)

Section ParseJson.
Context `{Platform}.

(** [_parse_json] makes one logging call, leaves the network alone,
    and its result is a function of the response only. *)
Lemma v1_parse_json_run self response eo w :
  BaiduV1._parse_json self response eo w =
  Outcome w [Log DEBUG response []]
    (r ← get response "result" (PList []);
     n ← len r;
     if (n =? 0)%nat then
       status ← get response "status" PNone;
       BaiduV1._check_status status;; mret None
     else loc ← BaiduV1.parse_result response; mret (Some loc)).
Proof.
  unfold BaiduV1._parse_json. run.
  destruct (get response "result" (PList [])) as [e|r]; run; [reflexivity|].
  destruct (len r) as [e|n]; run; [reflexivity|].
  destruct (n =? 0)%nat.
  - destruct (get response "status" PNone) as [e|st]; run; [reflexivity|].
    destruct (BaiduV1._check_status st) as [e|[]]; reflexivity.
  - destruct (BaiduV1.parse_result response); reflexivity.
Qed.

Lemma v2_parse_json_run self response eo w :
  BaiduV2._parse_json self response eo w =
  Outcome w [Log WARNING response []]
    (r ← get response "results" (PList []);
     n ← len r;
     if (n =? 0)%nat then
       status ← get response "status" PNone;
       BaiduV2._check_status status;; mret None
     else loc ← BaiduV2.parse_result response; mret (Some loc)).
Proof.
  unfold BaiduV2._parse_json. run.
  destruct (get response "results" (PList [])) as [e|r]; run; [reflexivity|].
  destruct (len r) as [e|n]; run; [reflexivity|].
  destruct (n =? 0)%nat.
  - destruct (get response "status" PNone) as [e|st]; run; [reflexivity|].
    destruct (BaiduV2._check_status st) as [e|[]]; reflexivity.
  - destruct (BaiduV2.parse_result response); reflexivity.
Qed.

(** On a dict whose collection is empty the result is the verdict of
    [_check_status]. *)
Lemma v1_parse_json_empty self d eo w :
  len (collection "result" d) = inr 0%nat →
  result (BaiduV1._parse_json self (PDict d) eo w) =
  (BaiduV1._check_status (status_of d);; mret None).
Proof.
  intros Hlen. rewrite v1_parse_json_run. simpl.
  unfold collection in Hlen. by rewrite Hlen.
Qed.

Lemma v2_parse_json_empty self d eo w :
  len (collection "results" d) = inr 0%nat →
  result (BaiduV2._parse_json self (PDict d) eo w) =
  (BaiduV2._check_status (status_of d);; mret None).
Proof.
  intros Hlen. rewrite v2_parse_json_run. simpl.
  unfold collection in Hlen. by rewrite Hlen.
Qed.

(** The builtin operations raise no query error. *)
Lemma getitem_not_query v k msg : getitem v k ≠ inl (GeocoderQueryError msg).
Proof. unfold getitem. repeat case_match; discriminate. Qed.

Lemma get_not_query v k dflt msg :
  get v k dflt ≠ inl (GeocoderQueryError msg).
Proof. unfold get. repeat case_match; discriminate. Qed.

Lemma len_not_query v msg : len v ≠ inl (GeocoderQueryError msg).
Proof. unfold len. repeat case_match; discriminate. Qed.

End ParseJson.


(** ** Equality of a status with a literal *)

Section StatusEquality.

Lemma float_eq_int_inj f a b :
  float_eq_int f a = true → float_eq_int f b = true → a = b.
Proof.
  destruct f as [s| | |s m e]; simpl; try discriminate.
  - intros ?%Z.eqb_eq ?%Z.eqb_eq. congruence.
  - destruct (0 <=? e) eqn:He; intros Ha%Z.eqb_eq Hb%Z.eqb_eq; [congruence|].
    apply Z.leb_gt in He.
    assert (0 < 2 ^ (- e)) by (apply Z.pow_pos_nonneg; lia).
    rewrite Ha in Hb. apply Z.mul_reg_r in Hb; lia.
Qed.

Lemma eq_int_inj v a b : eq_int v a = true → eq_int v b = true → a = b.
Proof.
  destruct v; simpl; try discriminate.
  - intros ?%Z.eqb_eq ?%Z.eqb_eq. congruence.
  - intros ?%Z.eqb_eq ?%Z.eqb_eq. congruence.
  - apply float_eq_int_inj.
Qed.

Lemma eq_int_other v a b : eq_int v a = true → a ≠ b → eq_int v b = false.
Proof.
  intros Ha Hab. destruct (eq_int v b) eqn:Hb; [|done].
  destruct Hab. by eapply eq_int_inj.
Qed.

Lemma eq_str_true v s : eq_str v s = true ↔ v = PStr s.
Proof.
  destruct v; simpl; try (split; [discriminate|congruence]).
  rewrite bool_decide_eq_true. split; congruence.
Qed.

Lemma eq_str_false v s : eq_str v s = false ↔ v ≠ PStr s.
Proof.
  rewrite <- eq_str_true. destruct (eq_str v s); split; congruence.
Qed.

End StatusEquality.

(** ** The coordinate pair of a Result *)

Section Coordinates.
Context `{Platform}.

Lemma coordinates_step lat lng p :
  (if truthy (and_ (or_ lat PNone) (or_ lng PNone)) then
     flat ← float float_of_str (or_ lat PNone);
     flng ← float float_of_str (or_ lng PNone);
     mret (PFloat flat, PFloat flng)
   else mret (or_ lat PNone, or_ lng PNone)) = inr p →
  coordinates lat lng p.
Proof.
  unfold and_, or_.
  destruct (truthy lat) eqn:Hlat, (truthy lng) eqn:Hlng; simpl;
    rewrite ?Hlat, ?Hlng; simpl.
  - destruct (float float_of_str lat) as [|f] eqn:Hf; [discriminate|].
    destruct (float float_of_str lng) as [|g] eqn:Hg; [discriminate|].
    simpl. intros [= <-]. by constructor.
  - intros [= <-]. by constructor.
  - intros [= <-]. by constructor.
  - intros [= <-]. by constructor.
Qed.

Lemma v1_parse_result_inv response loc :
  BaiduV1.parse_result response = inr loc →
  ∃ lat lng, v1_axes response = inr (lat, lng) ∧
             ∃ p, coordinates lat lng p ∧ point loc = normalized p.
Proof.
  unfold BaiduV1.parse_result, v1_axes.
  destruct (getitem response "result") as [|res]; [discriminate|]. simpl.
  destruct (get res "formatted_address" PNone) as [|a]; [discriminate|].
  simpl.
  destruct (getitem res "location") as [|location]; [discriminate|]. simpl.
  destruct (getitem location "lat") as [|lat]; [discriminate|]. simpl.
  destruct (getitem location "lng") as [|lng]; [discriminate|]. simpl.
  intros Hloc. exists lat, lng. split; [done|].
  destruct (if truthy _ then _ else _) as [|[a1 a2]] eqn:Hstep;
    [discriminate|].
  exists (a1, a2). split; [by apply coordinates_step|].
  simpl in Hloc. by injection Hloc as <-.
Qed.


End Coordinates.

(** ** Claims on parsing *)

Section ParsingClaims.
Context `{Platform}.

Lemma v1_parse_json_accepts self response eo w loc :
  result (BaiduV1._parse_json self response eo w) = inr (Some loc) →
  BaiduV1.parse_result response = inr loc.
Proof.
  rewrite v1_parse_json_run. simpl.
  destruct (get response "result" (PList [])) as [|r]; [discriminate|].
  simpl. destruct (len r) as [|n]; [discriminate|]. simpl.
  destruct (n =? 0)%nat.
  - destruct (get response "status" PNone) as [|st]; [discriminate|].
    simpl. by destruct (BaiduV1._check_status st) as [|[]].
  - destruct (BaiduV1.parse_result response); [discriminate|].
    run. congruence.
Qed.

Lemma v2_parse_json_accepts self response eo w loc :
  result (BaiduV2._parse_json self response eo w) = inr (Some loc) →
  BaiduV2.parse_result response = inr loc.
Proof.
  rewrite v2_parse_json_run. simpl.
  destruct (get response "results" (PList [])) as [|r]; [discriminate|].
  simpl. destruct (len r) as [|n]; [discriminate|]. simpl.
  destruct (n =? 0)%nat.
  - destruct (get response "status" PNone) as [|st]; [discriminate|].
    simpl. by destruct (BaiduV2._check_status st) as [|[]].
  - destruct (BaiduV2.parse_result response); [discriminate|].
    run. congruence.
Qed.



(** C2, evaluated on the code.  On a response of the documented shape
    [{status, results: [entry, ...]}] and nothing else, [_parse_json]
    of the second version hands the whole response to its inner
    function, which looks for [level] at the top level and raises
    [KeyError]; no Result is returned, whatever the entries hold. *)
Theorem v2_parse_json_documented_shape_raises self status entry entries eo w :
  result
    (BaiduV2._parse_json self
       (PDict {[ "status" := status; "results" := PList (entry :: entries) ]})
       eo w)
  = inl (KeyError "level").
Proof.
  rewrite v2_parse_json_run. simpl.
  simplify_map_eq. simpl.
  unfold BaiduV2.parse_result, getitem. by simplify_map_eq.
Qed.

End ParsingClaims.

Import Examples.


(** ** Claims on status validation *)

(** One step of a computation that may raise: either the step raised
    the error at hand, which [lem] excludes, or it went on. *)
Ltac raised_by Hq lem :=
  match type of Hq with
  | (?m ≫= _) = _ =>
      let E := fresh "E" in
      destruct m eqn:E; simpl in Hq;
      [injection Hq as ->; by eapply lem|]
  end.

Section StatusClaims.
Context `{Platform}.

Lemma v1_parse_result_not_query response msg :
  BaiduV1.parse_result response ≠ inl (GeocoderQueryError msg).
Proof.
  unfold BaiduV1.parse_result. intros Hq.
  raised_by Hq getitem_not_query. raised_by Hq get_not_query.
  raised_by Hq getitem_not_query. raised_by Hq getitem_not_query.
  raised_by Hq getitem_not_query.
  destruct (truthy _); [|by run].
  unfold float in Hq. repeat case_match; by run.
Qed.

(** C3.  On a response of the first version whose [result] collection is
    empty the outcome is decided by the status: "OK" returns [None];
    a status equal to 1 raises the server-internal-error query error;
    "INVILID_KEY" raises one whose message contains "Invalid key";
    "INVALID_PARAMETERS" raises the invalid-parameters one; every other
    status raises the unknown-error one.  And a query error is raised
    only by a response whose [result] collection is empty. *)
Theorem v1_status_validation self response eo w :
  let r := result (BaiduV1._parse_json self response eo w) in
  (∀ d, response = PDict d → len (collection "result" d) = inr 0%nat →
     (status_of d = PStr "OK" → r = inr None) ∧
     (eq_int (status_of d) 1 = true →
        r = inl (GeocoderQueryError "Server internal error.")) ∧
     (status_of d = PStr "INVILID_KEY" →
        ∃ msg, r = inl (GeocoderQueryError msg) ∧ contains "Invalid key" msg) ∧
     (status_of d = PStr "INVALID_PARAMETERS" →
        r = inl (GeocoderQueryError "INVALID PARAMETERS.")) ∧
     (status_of d ≠ PStr "OK" → eq_int (status_of d) 1 = false →
      status_of d ≠ PStr "INVILID_KEY" →
      status_of d ≠ PStr "INVALID_PARAMETERS" →
        r = inl (GeocoderQueryError "Unknown error."))) ∧
  (∀ msg, r = inl (GeocoderQueryError msg) →
     ∃ d, response = PDict d ∧ len (collection "result" d) = inr 0%nat).
Proof.
  intros r. subst r. split.
  - intros d -> Hlen. rewrite (v1_parse_json_empty _ _ _ _ Hlen).
    unfold BaiduV1._check_status.
    repeat split.
    + by intros ->.
    + intros H1. destruct (eq_str (status_of d) "OK") eqn:Hok.
      * apply eq_str_true in Hok. by rewrite Hok in H1.
      * by rewrite H1.
    + intros ->. exists "Invalid key.". split; [done|]. by exists "", ".".
    + by intros ->.
    + intros ?%eq_str_false -> ?%eq_str_false ?%eq_str_false.
      by repeat match goal with Hs : eq_str _ _ = false |- _ => rewrite Hs; clear Hs end.
  - intros msg. rewrite v1_parse_json_run. simpl.
    destruct response as [| | | | | |d]; try discriminate. simpl.
    fold (collection "result" d).
    destruct (len (collection "result" d)) as [e|[|n]] eqn:Hlen; simpl.
    + intros [= ->]. by destruct (len_not_query (collection "result" d) msg).
    + eauto.
    + intros Hq. destruct (BaiduV1.parse_result (PDict d)) as [e|loc] eqn:Hp;
        [|discriminate].
      injection Hq as ->. by destruct (v1_parse_result_not_query (PDict d) msg).
Qed.

Lemma v2_check_status_rejects status code msg :
  (code, msg) ∈ v2_rejections → eq_int status code = true →
  BaiduV2._check_status status = inl (GeocoderQueryError msg).
Proof.
  intros Hin Hcode. unfold BaiduV2._check_status.
  unfold v2_rejections in Hin.
  repeat (apply elem_of_cons in Hin as [[= -> ->]|Hin];
          [repeat match goal with
                  | |- context [eq_int status ?k] =>
                      first [rewrite Hcode
                            |rewrite (eq_int_other status _ k Hcode) by lia]
                  end; reflexivity|]).
  by apply elem_of_nil in Hin.
Qed.

(** C4.  On a response of the second version whose [results] collection
    is empty the outcome is decided by the numeric status: 0 returns
    [None]; each code of [v2_rejections] (1, 2, 3, 4, 5, 101, 102)
    raises the query error with its cause; every other status, 999 for
    one, raises the query error "Unknown error.". *)
Theorem v2_status_validation self d eo w :
  len (collection "results" d) = inr 0%nat →
  let r := result (BaiduV2._parse_json self (PDict d) eo w) in
  (eq_int (status_of d) 0 = true → r = inr None) ∧
  (∀ code msg, (code, msg) ∈ v2_rejections →
     eq_int (status_of d) code = true → r = inl (GeocoderQueryError msg)) ∧
  ((∀ code, code ∈ v2_known_codes → eq_int (status_of d) code = false) →
     r = inl (GeocoderQueryError "Unknown error.")) ∧
  (status_of d = PInt 999 → r = inl (GeocoderQueryError "Unknown error.")).
Proof.
  intros Hlen r. subst r. rewrite (v2_parse_json_empty _ _ _ _ Hlen).
  repeat split.
  - intros H0. unfold BaiduV2._check_status. by rewrite H0.
  - intros code msg Hin Hcode.
    by rewrite (v2_check_status_rejects _ _ _ Hin Hcode).
  - intros Hnone. unfold BaiduV2._check_status.
    rewrite !Hnone; [done|..]; unfold v2_known_codes; simpl; set_solver.
  - by intros ->.
Qed.

End StatusClaims.

Lemma v1_status_validation_witness :
  len (collection "result" (v1_empty (PStr "INVILID_KEY"))) = inr 0%nat ∧
  status_of (v1_empty (PStr "INVILID_KEY")) = PStr "INVILID_KEY" ∧
  ∃ msg,
    result (@BaiduV1._parse_json Canned.platform v1
              (PDict (v1_empty (PStr "INVILID_KEY"))) None [])
    = inl (GeocoderQueryError msg) ∧
    contains "Invalid key" msg.
Proof.
  assert (Hlen : len (collection "result" (v1_empty (PStr "INVILID_KEY")))
                 = inr 0%nat) by (vm_compute; reflexivity).
  assert (Hst : status_of (v1_empty (PStr "INVILID_KEY"))
                = PStr "INVILID_KEY") by (vm_compute; reflexivity).
  split; [exact Hlen|]. split; [exact Hst|].
  destruct (@v1_status_validation Canned.platform v1
              (PDict (v1_empty (PStr "INVILID_KEY"))) None [])
    as [Hcases _].
  destruct (Hcases _ eq_refl Hlen) as (_ & _ & Hkey & _).
  exact (Hkey Hst).
Defined.

Lemma v2_status_validation_witness :
  len (collection "results" (v2_empty (PInt 5))) = inr 0%nat ∧
  (5, "Invalid ak.") ∈ v2_rejections ∧
  eq_int (status_of (v2_empty (PInt 5))) 5 = true ∧
  result (@BaiduV2._parse_json Canned.platform v2
            (PDict (v2_empty (PInt 5))) None [])
  = inl (GeocoderQueryError "Invalid ak.").
Proof.
  assert (Hlen : len (collection "results" (v2_empty (PInt 5)))
                 = inr 0%nat) by (vm_compute; reflexivity).
  assert (Hin : (5, "Invalid ak.") ∈ v2_rejections)
    by (unfold v2_rejections; do 4 apply list_elem_of_further;
        apply list_elem_of_here).
  assert (Hst : eq_int (status_of (v2_empty (PInt 5))) 5 = true)
    by (vm_compute; reflexivity).
  split; [exact Hlen|]. split; [exact Hin|]. split; [exact Hst|].
  destruct (@v2_status_validation Canned.platform v2 (v2_empty (PInt 5))
              None [] Hlen) as (_ & Hrej & _).
  exact (Hrej _ _ Hin Hst).
Defined.

(** ** Payloads that lack a key *)

Section MissingKeys.
Context `{Platform}.

(** C9.  For each of the keys [location], [lat], [lng] there is a
    response of the first version with a non-empty [result] that lacks
    the key, and for each of [level], [location] a response of the
    second version with non-empty [results] that lacks it, on which
    [_parse_json] returns nothing and raises no query error: it stops
    with the [KeyError] of the absent key. *)
Theorem parse_json_missing_key_unhandled self1 self2 eo w :
  Forall (v1_stops_at_missing self1 eo w) ["location"; "lat"; "lng"] ∧
  Forall (v2_stops_at_missing self2 eo w) ["level"; "location"].
Proof.
  unfold v1_stops_at_missing, v2_stops_at_missing.
  rewrite !Forall_cons, !Forall_nil. split_and!; [| | |done| | |done].
  - exists {[ "status" := PStr "OK";
              "result" := PDict {[ "formatted_address" := PStr "x" ]} ]}, 0%nat.
    rewrite v1_parse_json_run. split_and!; vm_compute; reflexivity.
  - exists {[ "status" := PStr "OK";
              "result" := PDict {[ "formatted_address" := PStr "x";
                                   "location" := PDict {[ "lng" := PFloat f116_25 ]} ]} ]},
           1%nat.
    rewrite v1_parse_json_run. split_and!; vm_compute; reflexivity.
  - exists {[ "status" := PStr "OK";
              "result" := PDict {[ "formatted_address" := PStr "x";
                                   "location" := PDict {[ "lat" := PFloat f39_5 ]} ]} ]},
           1%nat.
    rewrite v1_parse_json_run. split_and!; vm_compute; reflexivity.
  - exists {[ "status" := PInt 0;
              "results" := PList [PDict {[ "location" :=
                                             location (PFloat f39_5) (PFloat f116_25) ]}] ]},
           0%nat.
    rewrite v2_parse_json_run. split_and!; vm_compute; reflexivity.
  - exists {[ "status" := PInt 0;
              "results" := PList [PDict {[ "level" := PStr "street" ]}];
              "level" := PStr "street" ]}, 0%nat.
    rewrite v2_parse_json_run. split_and!; vm_compute; reflexivity.
Qed.

End MissingKeys.

(** ** Request construction *)

Section Requests.
Context `{Platform}.

Lemma append_empty_r (s : string) : s ++ "" = s.
Proof.
  induction s as [|a s IH]; [done|].
  change (String a (s ++ "") = String a s). by rewrite IH.
Qed.

Lemma v1_init key fmt scheme tmo prx :
  BaiduV1.__init__ key fmt scheme tmo prx =
  inr {| BaiduV1.base :=
           Geocoder.__init__ (default DEFAULT_FORMAT_STRING fmt)
             (default "http" scheme) (default DEFAULT_TIMEOUT tmo)
             (default PNone prx);
         BaiduV1.key := key;
         BaiduV1.api := default "http" scheme ++ "://api.map.baidu.com/geocoder" |}.
Proof. reflexivity. Qed.

Lemma v2_init ak fmt scheme tmo prx :
  BaiduV2.__init__ ak fmt scheme tmo prx =
  inr {| BaiduV2.base :=
           Geocoder.__init__ (default DEFAULT_FORMAT_STRING fmt)
             (default "http" scheme) (default DEFAULT_TIMEOUT tmo)
             (default PNone prx);
         BaiduV2.ak := ak;
         BaiduV2.api :=
           default "http" scheme ++ "://api.map.baidu.com/geocoder/v2/" |}.
Proof. reflexivity. Qed.

(** The requests a call of [geocode] hands to the transport: one, for
    the endpoint followed by the encoded parameters, when the
    parameters can be built and encoded, and none otherwise. *)
(** From here on [_parse_json] is used through [v1_parse_json_run] and
    [v2_parse_json_run] only. *)
Opaque BaiduV1._parse_json BaiduV2._parse_json.

Lemma v1_geocode_requests self query city eo t w :
  requests (trace (BaiduV1.geocode self query city eo t w)) =
  match params ← BaiduV1.geocode_params self query (default PNone city);
        urlencode params with
  | inr qs => [(BaiduV1.api self ++ "?" ++ qs, default PNone t)]
  | inl _ => []
  end.
Proof.
  unfold BaiduV1.geocode.
  destruct (BaiduV1.geocode_params self query (default PNone city))
    as [e|params]; [reflexivity|].
  run. destruct (urlencode params) as [e|qs]; [reflexivity|]. run.
  destruct (_call_geocoder _ _ _ w) as [w' [e|response]]; [reflexivity|].
  run. by rewrite v1_parse_json_run.
Qed.

Lemma v2_geocode_requests self query city eo t w :
  requests (trace (BaiduV2.geocode self query city eo t w)) =
  match params ← BaiduV2.geocode_params self query (default PNone city);
        urlencode params with
  | inr qs => [(BaiduV2.api self ++ "?" ++ qs, default PNone t)]
  | inl _ => []
  end.
Proof.
  unfold BaiduV2.geocode.
  destruct (BaiduV2.geocode_params self query (default PNone city))
    as [e|params]; [reflexivity|].
  run. destruct (urlencode params) as [e|qs]; [reflexivity|]. run.
  destruct (_call_geocoder _ _ _ w) as [w' [e|response]]; [reflexivity|].
  run. by rewrite v2_parse_json_run.
Qed.

Lemma v1_reverse_requests self query eo t w :
  requests (trace (BaiduV1.reverse self query eo t w)) =
  match params ← BaiduV1.reverse_params self query; urlencode params with
  | inr qs => [(BaiduV1.api self ++ "?" ++ qs, default PNone t)]
  | inl _ => []
  end.
Proof.
  unfold BaiduV1.reverse.
  destruct (BaiduV1.reverse_params self query) as [e|params]; [reflexivity|].
  run. destruct (urlencode params) as [e|qs]; [reflexivity|]. run.
  rewrite append_empty_r.
  destruct (_call_geocoder _ _ _ w) as [w' [e|response]]; [reflexivity|].
  run. by rewrite v1_parse_json_run.
Qed.

Lemma v2_reverse_requests self query coordtype eo t w :
  requests (trace (BaiduV2.reverse self query coordtype eo t w)) =
  match params ← BaiduV2.reverse_params self query
                   (default (PStr "bd09ll") coordtype);
        urlencode params with
  | inr qs => [(BaiduV2.api self ++ "?" ++ qs, default PNone t)]
  | inl _ => []
  end.
Proof.
  unfold BaiduV2.reverse.
  destruct (BaiduV2.reverse_params self query _) as [e|params]; [reflexivity|].
  run. destruct (urlencode params) as [e|qs]; [reflexivity|]. run.
  rewrite append_empty_r.
  destruct (_call_geocoder _ _ _ w) as [w' [e|response]]; [reflexivity|].
  run. by rewrite v2_parse_json_run.
Qed.

Transparent BaiduV1._parse_json BaiduV2._parse_json.

(** What [geocode] puts in the parameter dict. *)
Lemma v1_geocode_params_spec self query city address :
  str_mod (Geocoder.format_string (BaiduV1.base self)) [query] = inr address →
  ∃ params,
    BaiduV1.geocode_params self query (default PNone city) = inr params ∧
    geocode_params_spec "key" (BaiduV1.key self) address city params.
Proof.
  intros Haddr. unfold BaiduV1.geocode_params. rewrite Haddr. simpl.
  eexists. split; [reflexivity|]. unfold geocode_params_spec.
  destruct city as [c|]; simpl; [destruct (truthy c)|];
    (split_and!; [by simplify_map_eq..|]);
    intros k Hk; repeat apply not_elem_of_cons in Hk as [? Hk];
    by simplify_map_eq.
Qed.

Lemma v2_geocode_params_spec self query city address :
  str_mod (Geocoder.format_string (BaiduV2.base self)) [query] = inr address →
  ∃ params,
    BaiduV2.geocode_params self query (default PNone city) = inr params ∧
    geocode_params_spec "ak" (BaiduV2.ak self) address city params.
Proof.
  intros Haddr. unfold BaiduV2.geocode_params. rewrite Haddr. simpl.
  eexists. split; [reflexivity|]. unfold geocode_params_spec.
  destruct city as [c|]; simpl; [destruct (truthy c)|];
    (split_and!; [by simplify_map_eq..|]);
    intros k Hk; repeat apply not_elem_of_cons in Hk as [? Hk];
    by simplify_map_eq.
Qed.

(** C5.  For a geocoder built with a credential, an output template and
    a scheme, and a query to which the template applies, [geocode]
    builds exactly the parameters [address] (the template applied to the
    query), [output] = "json" and the credential ([key] in the first
    version, [ak] in the second), plus [city] only if one was passed
    (and is truthy); and the one request it hands to the transport is
    for the endpoint [{scheme}://api.map.baidu.com/geocoder]
    ([.../geocoder/v2/] in the second version) followed by "?" and the
    URL encoding of those parameters. *)
Theorem geocode_builds_request credential fmt scheme tmo prx query city eo t w
    address :
  str_mod (default DEFAULT_FORMAT_STRING fmt) [query] = inr address →
  (∃ self params,
     BaiduV1.__init__ credential fmt scheme tmo prx = inr self ∧
     BaiduV1.geocode_params self query (default PNone city) = inr params ∧
     geocode_params_spec "key" credential address city params ∧
     ∀ qs, urlencode params = inr qs →
       requests (trace (BaiduV1.geocode self query city eo t w)) =
       [((default "http" scheme ++ "://api.map.baidu.com/geocoder")
           ++ "?" ++ qs,
         default PNone t)]) ∧
  (∃ self params,
     BaiduV2.__init__ credential fmt scheme tmo prx = inr self ∧
     BaiduV2.geocode_params self query (default PNone city) = inr params ∧
     geocode_params_spec "ak" credential address city params ∧
     ∀ qs, urlencode params = inr qs →
       requests (trace (BaiduV2.geocode self query city eo t w)) =
       [((default "http" scheme ++ "://api.map.baidu.com/geocoder/v2/")
           ++ "?" ++ qs,
         default PNone t)]).
Proof.
  intros Haddr. split.
  - rewrite v1_init. set (self := BaiduV1.Build_t _ _ _). exists self.
    destruct (v1_geocode_params_spec self query city address Haddr)
      as (params & Hparams & Hspec).
    exists params. split_and!; [reflexivity|exact Hparams|exact Hspec|].
    intros qs Hqs. rewrite v1_geocode_requests, Hparams. simpl.
    by rewrite Hqs.
  - rewrite v2_init. set (self := BaiduV2.Build_t _ _ _). exists self.
    destruct (v2_geocode_params_spec self query city address Haddr)
      as (params & Hparams & Hspec).
    exists params. split_and!; [reflexivity|exact Hparams|exact Hspec|].
    intros qs Hqs. rewrite v2_geocode_requests, Hparams. simpl.
    by rewrite Hqs.
Qed.

Lemma v1_reverse_params_spec self query location :
  _coerce_point_to_string query = inr location →
  ∃ params,
    BaiduV1.reverse_params self query = inr params ∧
    reverse_params_spec "key" (BaiduV1.key self) location None params.
Proof.
  intros Hloc. unfold BaiduV1.reverse_params. rewrite Hloc. simpl.
  eexists. split; [reflexivity|]. unfold reverse_params_spec.
  split_and!; [by simplify_map_eq..|].
  intros k Hk; repeat apply not_elem_of_cons in Hk as [? Hk].
  by simplify_map_eq.
Qed.

Lemma v2_reverse_params_spec self query coordtype location :
  _coerce_point_to_string query = inr location →
  ∃ params,
    BaiduV2.reverse_params self query coordtype = inr params ∧
    reverse_params_spec "ak" (BaiduV2.ak self) location (Some coordtype) params.
Proof.
  intros Hloc. unfold BaiduV2.reverse_params. rewrite Hloc. simpl.
  eexists. split; [reflexivity|]. unfold reverse_params_spec.
  split_and!; [by simplify_map_eq..|].
  intros k Hk; repeat apply not_elem_of_cons in Hk as [? Hk].
  by simplify_map_eq.
Qed.

(** C6.  For a point-like query that the coercion helper turns into the
    text [location], [reverse] of either version builds the parameter
    [location] with that text beside [output] = "json" and the
    version's credential; the second version adds [coordtype], which is
    "bd09ll" when the caller passes none; and the one request handed to
    the transport is for the endpoint followed by "?" and the URL
    encoding of those parameters. *)
Theorem reverse_builds_request credential fmt scheme tmo prx query coordtype
    eo t w location :
  _coerce_point_to_string query = inr location →
  (∃ self params,
     BaiduV1.__init__ credential fmt scheme tmo prx = inr self ∧
     BaiduV1.reverse_params self query = inr params ∧
     reverse_params_spec "key" credential location None params ∧
     ∀ qs, urlencode params = inr qs →
       requests (trace (BaiduV1.reverse self query eo t w)) =
       [((default "http" scheme ++ "://api.map.baidu.com/geocoder")
           ++ "?" ++ qs,
         default PNone t)]) ∧
  (∃ self params,
     BaiduV2.__init__ credential fmt scheme tmo prx = inr self ∧
     BaiduV2.reverse_params self query (default (PStr "bd09ll") coordtype)
       = inr params ∧
     reverse_params_spec "ak" credential location
       (Some (default (PStr "bd09ll") coordtype)) params ∧
     (coordtype = None → params !! "coordtype" = Some (PStr "bd09ll")) ∧
     ∀ qs, urlencode params = inr qs →
       requests (trace (BaiduV2.reverse self query coordtype eo t w)) =
       [((default "http" scheme ++ "://api.map.baidu.com/geocoder/v2/")
           ++ "?" ++ qs,
         default PNone t)]).
Proof.
  intros Hloc. split.
  - rewrite v1_init. set (self := BaiduV1.Build_t _ _ _). exists self.
    destruct (v1_reverse_params_spec self query location Hloc)
      as (params & Hparams & Hspec).
    exists params. split_and!; [reflexivity|exact Hparams|exact Hspec|].
    intros qs Hqs. rewrite v1_reverse_requests, Hparams. simpl.
    by rewrite Hqs.
  - rewrite v2_init. set (self := BaiduV2.Build_t _ _ _). exists self.
    destruct (v2_reverse_params_spec self query
                (default (PStr "bd09ll") coordtype) location Hloc)
      as (params & Hparams & Hspec).
    exists params. split_and!; [reflexivity|exact Hparams|exact Hspec| |].
    + intros ->. by destruct Hspec as (_ & _ & _ & -> & _).
    + intros qs Hqs. rewrite v2_reverse_requests, Hparams. simpl.
      by rewrite Hqs.
Qed.

(** C7.  [exactly_one] has no influence: whatever is passed for it
    (nothing, true or false), [_parse_json], [geocode] and [reverse] of
    both versions leave the same network state, the same logging calls
    and requests, and the same result or error. *)
Theorem exactly_one_has_no_influence (self1 : BaiduV1.t) (self2 : BaiduV2.t)
    response query point city coordtype t w (eo eo' : option bool) :
  BaiduV1._parse_json self1 response eo w
    = BaiduV1._parse_json self1 response eo' w ∧
  BaiduV2._parse_json self2 response eo w
    = BaiduV2._parse_json self2 response eo' w ∧
  BaiduV1.geocode self1 query city eo t w
    = BaiduV1.geocode self1 query city eo' t w ∧
  BaiduV2.geocode self2 query city eo t w
    = BaiduV2.geocode self2 query city eo' t w ∧
  BaiduV1.reverse self1 point eo t w
    = BaiduV1.reverse self1 point eo' t w ∧
  BaiduV2.reverse self2 point coordtype eo t w
    = BaiduV2.reverse self2 point coordtype eo' t w.
Proof.
  split_and!.
  - by rewrite !v1_parse_json_run.
  - by rewrite !v2_parse_json_run.
  - unfold BaiduV1.geocode. reflexivity.
  - unfold BaiduV2.geocode. reflexivity.
  - unfold BaiduV1.reverse. reflexivity.
  - unfold BaiduV2.reverse. reflexivity.
Qed.

(** C8.  The requests built by [geocode] are a function of the instance
    and of (query, city, timeout): two invocations with these inputs
    hand the same URLs to the transport, in whatever state of the
    network each one runs (the second after the first, for one) and
    whatever is passed for [exactly_one]. *)
Theorem geocode_requests_deterministic query city t (eo eo' : option bool) :
  (∀ (self : BaiduV1.t) w w',
     requests (trace (BaiduV1.geocode self query city eo t w)) =
     requests (trace (BaiduV1.geocode self query city eo' t w')) ∧
     requests (trace (BaiduV1.geocode self query city eo t w)) =
     requests (trace (BaiduV1.geocode self query city eo' t
                        (world_after (BaiduV1.geocode self query city eo t w))))) ∧
  (∀ (self : BaiduV2.t) w w',
     requests (trace (BaiduV2.geocode self query city eo t w)) =
     requests (trace (BaiduV2.geocode self query city eo' t w')) ∧
     requests (trace (BaiduV2.geocode self query city eo t w)) =
     requests (trace (BaiduV2.geocode self query city eo' t
                        (world_after (BaiduV2.geocode self query city eo t w))))).
Proof.
  split; intros self w w'.
  - by rewrite !v1_geocode_requests.
  - by rewrite !v2_geocode_requests.
Qed.

Lemma v1_geocode_params_falsy self query city :
  truthy city = false →
  BaiduV1.geocode_params self query city
    = BaiduV1.geocode_params self query PNone.
Proof. intros Hc. unfold BaiduV1.geocode_params. by rewrite Hc. Qed.

Lemma v2_geocode_params_falsy self query city :
  truthy city = false →
  BaiduV2.geocode_params self query city
    = BaiduV2.geocode_params self query PNone.
Proof. intros Hc. unfold BaiduV2.geocode_params. by rewrite Hc. Qed.

(** C10.  A falsy [city] that the caller passes explicitly (the empty
    text, for one) is left out of the parameters, and the call is the
    same as one without [city]: inclusion goes by truthiness, not by
    presence of the argument. *)
Theorem geocode_omits_falsy_city query city eo t w :
  truthy city = false →
  (∀ self : BaiduV1.t,
     (∀ params, BaiduV1.geocode_params self query city = inr params →
                params !! "city" = None) ∧
     BaiduV1.geocode self query (Some city) eo t w
       = BaiduV1.geocode self query None eo t w) ∧
  (∀ self : BaiduV2.t,
     (∀ params, BaiduV2.geocode_params self query city = inr params →
                params !! "city" = None) ∧
     BaiduV2.geocode self query (Some city) eo t w
       = BaiduV2.geocode self query None eo t w).
Proof.
  intros Hc. split; intros self; split.
  - intros params. unfold BaiduV1.geocode_params. rewrite Hc.
    destruct (str_mod _ _); [discriminate|]. simpl. intros [= <-].
    by simplify_map_eq.
  - unfold BaiduV1.geocode. simpl.
    by rewrite (v1_geocode_params_falsy _ _ _ Hc).
  - intros params. unfold BaiduV2.geocode_params. rewrite Hc.
    destruct (str_mod _ _); [discriminate|]. simpl. intros [= <-].
    by simplify_map_eq.
  - unfold BaiduV2.geocode. simpl.
    by rewrite (v2_geocode_params_falsy _ _ _ Hc).
Qed.

End Requests.

Lemma geocode_builds_request_witness :
  str_mod (default DEFAULT_FORMAT_STRING None) ["abc"] = inr "abc" ∧
  ∃ self params,
    @BaiduV1.__init__ Canned.platform "k" None None None None = inr self ∧
    BaiduV1.geocode_params self "abc" (PStr "sh") = inr params ∧
    geocode_params_spec "key" "k" "abc" (Some (PStr "sh")) params ∧
    ∀ qs, Canned.encode params = inr qs →
      requests (trace (@BaiduV1.geocode Canned.platform self "abc"
                         (Some (PStr "sh")) None None [])) =
      [(("http" ++ "://api.map.baidu.com/geocoder") ++ "?" ++ qs, PNone)].
Proof.
  split; [reflexivity|].
  exact (proj1 (@geocode_builds_request Canned.platform "k" None None None
                  None "abc" (Some (PStr "sh")) None None [] "abc" eq_refl)).
Defined.

Lemma reverse_builds_request_witness :
  Canned.coerce (PointText "39.983424,116.322987")
    = inr "39.983424,116.322987" ∧
  ∃ self params,
    @BaiduV2.__init__ Canned.platform "k" None None None None = inr self ∧
    @BaiduV2.reverse_params Canned.platform self
      (PointText "39.983424,116.322987") (PStr "bd09ll") = inr params ∧
    reverse_params_spec "ak" "k" "39.983424,116.322987"
      (Some (PStr "bd09ll")) params ∧
    (@None value = None → params !! "coordtype" = Some (PStr "bd09ll")) ∧
    ∀ qs, Canned.encode params = inr qs →
      requests (trace (@BaiduV2.reverse Canned.platform self
                         (PointText "39.983424,116.322987") None None None
                         [])) =
      [(("http" ++ "://api.map.baidu.com/geocoder/v2/") ++ "?" ++ qs, PNone)].
Proof.
  split; [reflexivity|].
  exact (proj2 (@reverse_builds_request Canned.platform "k" None None None
                  None (PointText "39.983424,116.322987") None None None []
                  "39.983424,116.322987" eq_refl)).
Defined.

Lemma geocode_omits_falsy_city_witness :
  truthy (PStr "") = false ∧
  (∀ params,
     BaiduV1.geocode_params v1 "abc" (PStr "") = inr params →
     params !! "city" = None) ∧
  @BaiduV1.geocode Canned.platform v1 "abc" (Some (PStr "")) None None []
    = @BaiduV1.geocode Canned.platform v1 "abc" None None None [].
Proof.
  split; [reflexivity|].
  exact (proj1 (@geocode_omits_falsy_city Canned.platform "abc" (PStr "")
                  None None [] eq_refl) v1).
Defined.

(** ** Evaluations on the sample payloads *)

Example v1_sample_instance :
  @BaiduV1.__init__ Canned.platform "k" None None None None = inr v1.
Proof. reflexivity. Qed.

Example v2_sample_instance :
  @BaiduV2.__init__ Canned.platform "k" None None None None = inr v2.
Proof. reflexivity. Qed.

Example v2_documented_payload_raises :
  result (@BaiduV2._parse_json Canned.platform v2
            (v2_payload (PFloat f39_5) (PFloat f116_25)) None [])
  = inl (KeyError "level").
Proof. vm_compute. reflexivity. Qed.

Example v1_ok_empty_returns_none :
  result (@BaiduV1._parse_json Canned.platform v1
            (PDict (v1_empty (PStr "OK"))) None [])
  = inr None.
Proof. vm_compute. reflexivity. Qed.

Example v1_true_is_one :
  result (@BaiduV1._parse_json Canned.platform v1
            (PDict (v1_empty (PBool true))) None [])
  = inl (GeocoderQueryError "Server internal error.").
Proof. vm_compute. reflexivity. Qed.

Example v2_unmapped_status :
  result (@BaiduV2._parse_json Canned.platform v2
            (PDict (v2_empty (PInt 999))) None [])
  = inl (GeocoderQueryError "Unknown error.").
Proof. vm_compute. reflexivity. Qed.

Example v1_geocode_url :
  requests (trace (@BaiduV1.geocode Canned.platform v1 "abc"
                     (Some (PStr "sh")) None None []))
  = [("http://api.map.baidu.com/geocoder?output=json&key=k&city=sh&address=abc",
      PNone)].
Proof. vm_compute. reflexivity. Qed.

Example v2_geocode_url :
  requests (trace (@BaiduV2.geocode Canned.platform v2 "abc" None None None []))
  = [("http://api.map.baidu.com/geocoder/v2/?output=json&ak=k&address=abc",
      PNone)].
Proof. vm_compute. reflexivity. Qed.

Example v2_reverse_url :
  requests (trace (@BaiduV2.reverse Canned.platform v2
                     (PointText "39.983424,116.322987") None None None []))
  = [("http://api.map.baidu.com/geocoder/v2/?output=json&coordtype=bd09ll&ak=k&location=39.983424,116.322987",
      PNone)].
Proof. vm_compute. reflexivity. Qed.

(** * Further properties *)

(** ** Parsing: effects and malformed responses *)

Section ParsingEdges.
Context `{Platform}.

(** X1.  [_parse_json] of either version never touches the network and
    makes exactly one logging call, with the response as its message (at
    debug level in the first version, at warning level in the second),
    also when it raises. *)
Theorem parse_json_only_logs (self1 : BaiduV1.t) (self2 : BaiduV2.t)
    response eo w :
  world_after (BaiduV1._parse_json self1 response eo w) = w ∧
  trace (BaiduV1._parse_json self1 response eo w) = [Log DEBUG response []] ∧
  world_after (BaiduV2._parse_json self2 response eo w) = w ∧
  trace (BaiduV2._parse_json self2 response eo w) = [Log WARNING response []].
Proof.
  rewrite v1_parse_json_run, v2_parse_json_run. by split_and!.
Qed.

(** X2.  A response that is not a JSON object (a list, text, a number,
    null) makes [_parse_json] of either version raise [AttributeError]:
    neither [None] nor a query error. *)
Theorem parse_json_rejects_non_object (self1 : BaiduV1.t) (self2 : BaiduV2.t)
    response eo w :
  (∀ d, response ≠ PDict d) →
  result (BaiduV1._parse_json self1 response eo w) = inl AttributeError ∧
  result (BaiduV2._parse_json self2 response eo w) = inl AttributeError.
Proof.
  intros Hnot. rewrite v1_parse_json_run, v2_parse_json_run.
  destruct response as [| | | | | |d]; try by split.
  by destruct (Hnot d).
Qed.

(** X3.  When the root field holds null, a boolean or a number,
    [_parse_json] raises [TypeError] from [len], whatever the status
    says: the status is never looked at. *)
Theorem parse_json_scalar_collection (self1 : BaiduV1.t) (self2 : BaiduV2.t)
    d v eo w :
  scalar v = true →
  (d !! "result" = Some v →
     result (BaiduV1._parse_json self1 (PDict d) eo w) = inl TypeError) ∧
  (d !! "results" = Some v →
     result (BaiduV2._parse_json self2 (PDict d) eo w) = inl TypeError).
Proof.
  intros Hv. split; intros Hd.
  - rewrite v1_parse_json_run. simpl. rewrite Hd. simpl.
    by destruct v.
  - rewrite v2_parse_json_run. simpl. rewrite Hd. simpl.
    by destruct v.
Qed.

(** X4.  The first version reads [result] as an object only: when the
    field holds a non-empty list (the shape of the second version) or
    non-empty text, [_parse_json] raises [AttributeError]. *)
Theorem v1_parse_json_list_result self d v eo w :
  d !! "result" = Some v →
  (∃ x l, v = PList (x :: l)) ∨ (∃ c s, v = PStr (String c s)) →
  result (BaiduV1._parse_json self (PDict d) eo w) = inl AttributeError.
Proof.
  intros Hd Hv. rewrite v1_parse_json_run. simpl. rewrite Hd. simpl.
  unfold BaiduV1.parse_result, getitem. rewrite Hd.
  by destruct Hv as [(x & l & ->)|(c & s & ->)].
Qed.

(** X5.  [_check_status] returns only for the one passing status ("OK"
    in the first version, a status equal to 0 in the second), and
    whatever else it is given it raises a query error, never another
    exception. *)
Theorem check_status_verdicts status :
  (BaiduV1._check_status status = inr tt ↔ status = PStr "OK") ∧
  (BaiduV2._check_status status = inr tt ↔ eq_int status 0 = true) ∧
  (∀ e, BaiduV1._check_status status = inl e → ∃ msg, e = GeocoderQueryError msg) ∧
  (∀ e, BaiduV2._check_status status = inl e → ∃ msg, e = GeocoderQueryError msg).
Proof.
  unfold BaiduV1._check_status, BaiduV2._check_status. split_and!.
  - rewrite <- eq_str_true.
    destruct (eq_str status "OK"); [done|].
    repeat case_match; split; discriminate.
  - destruct (eq_int status 0); [done|].
    repeat case_match; split; discriminate.
  - intros e. repeat case_match; intros [= <-]; eauto.
  - intros e. repeat case_match; intros [= <-]; eauto.
Qed.

(** X6.  A response without a [status] field and with an empty (or
    missing) collection, the empty object for one, raises the query
    error "Unknown error." in both versions. *)
Theorem parse_json_missing_status (self1 : BaiduV1.t) (self2 : BaiduV2.t)
    d eo w :
  d !! "status" = None →
  (len (collection "result" d) = inr 0%nat →
     result (BaiduV1._parse_json self1 (PDict d) eo w)
     = inl (GeocoderQueryError "Unknown error.")) ∧
  (len (collection "results" d) = inr 0%nat →
     result (BaiduV2._parse_json self2 (PDict d) eo w)
     = inl (GeocoderQueryError "Unknown error.")).
Proof.
  intros Hst. split; intros Hlen.
  - rewrite (v1_parse_json_empty _ _ _ _ Hlen).
    unfold status_of. by rewrite Hst.
  - rewrite (v2_parse_json_empty _ _ _ _ Hlen).
    unfold status_of. by rewrite Hst.
Qed.

End ParsingEdges.

(** ** Parsing: what a Result holds *)

Section ParsingResults.
Context `{Platform}.

Lemma coordinates_complete lat lng p :
  coordinates lat lng p →
  (if truthy (and_ (or_ lat PNone) (or_ lng PNone)) then
     flat ← float float_of_str (or_ lat PNone);
     flng ← float float_of_str (or_ lng PNone);
     mret (PFloat flat, PFloat flng)
   else mret (or_ lat PNone, or_ lng PNone)) = inr p.
Proof.
  unfold and_, or_.
  intros [f g Hlat Hlng Hf Hg|Hlat Hlng|Hlat Hlng|Hlat Hlng];
    rewrite Hlat, Hlng; simpl; rewrite ?Hlat, ?Hlng, ?Hf, ?Hg; done.
Qed.

(** The inner function of the first version reads the [result] entry
    and nothing else. *)
Lemma v1_parse_result_only_result d d' :
  d !! "result" = d' !! "result" →
  BaiduV1.parse_result (PDict d) = BaiduV1.parse_result (PDict d').
Proof. intros Hd. unfold BaiduV1.parse_result, getitem. by rewrite Hd. Qed.

Lemma exn_bind_inr {A B : Type} (x : A) (f : A → exn + B) :
  (inr x ≫= f) = f x.
Proof. reflexivity. Qed.

Lemma exn_bind_inl {A B : Type} (e : exn) (f : A → exn + B) :
  (inl e ≫= f) = inl e.
Proof. reflexivity. Qed.

Lemma v1_parse_result_axes d res lat lng :
  d !! "result" = Some (PDict res) →
  v1_axes (PDict d) = inr (lat, lng) →
  BaiduV1.parse_result (PDict d) =
  ('(latitude, longitude) ←
     (if truthy (and_ (or_ lat PNone) (or_ lng PNone)) then
        flat ← float float_of_str (or_ lat PNone);
        flng ← float float_of_str (or_ lng PNone);
        mret (PFloat flat, PFloat flng)
      else mret (or_ lat PNone, or_ lng PNone));
   mret (new_Location (default PNone (res !! "formatted_address"))
           (latitude, longitude) (PDict res))).
Proof.
  intros Hd.
  assert (Hg : getitem (PDict d) "result" = inr (PDict res))
    by (simpl; by rewrite Hd).
  unfold v1_axes, BaiduV1.parse_result. rewrite Hg, !exn_bind_inr.
  change (get (PDict res) "formatted_address" PNone)
    with (inr (default PNone (res !! "formatted_address")) : exn + value).
  rewrite exn_bind_inr.
  destruct (getitem (PDict res) "location") as [e|location];
    rewrite ?exn_bind_inl, ?exn_bind_inr; [discriminate|].
  destruct (getitem location "lat") as [e|lat'];
    rewrite ?exn_bind_inl, ?exn_bind_inr; [discriminate|].
  destruct (getitem location "lng") as [e|lng'];
    rewrite ?exn_bind_inl, ?exn_bind_inr; [discriminate|].
  by intros [= -> ->].
Qed.

Lemma v2_parse_result_axes d lvl lat lng :
  d !! "level" = Some lvl →
  v2_axes (PDict d) = inr (lat, lng) →
  BaiduV2.parse_result (PDict d) =
  ('(latitude, longitude) ←
     (if truthy (and_ (or_ lat PNone) (or_ lng PNone)) then
        flat ← float float_of_str (or_ lat PNone);
        flng ← float float_of_str (or_ lng PNone);
        mret (PFloat flat, PFloat flng)
      else mret (or_ lat PNone, or_ lng PNone));
   mret (new_Location lvl (latitude, longitude) (PDict d))).
Proof.
  intros Hd.
  assert (Hg : getitem (PDict d) "level" = inr lvl)
    by (simpl; by rewrite Hd).
  unfold v2_axes, BaiduV2.parse_result. rewrite Hg, !exn_bind_inr.
  destruct (getitem (PDict d) "location") as [e|location];
    rewrite ?exn_bind_inl, ?exn_bind_inr; [discriminate|].
  destruct (getitem location "lat") as [e|lat'];
    rewrite ?exn_bind_inl, ?exn_bind_inr; [discriminate|].
  destruct (getitem location "lng") as [e|lng'];
    rewrite ?exn_bind_inl, ?exn_bind_inr; [discriminate|].
  by intros [= -> ->].
Qed.

(** A [result] object in which the axes can be found is not empty. *)
Lemma v1_axes_nonempty d res lat lng :
  d !! "result" = Some (PDict res) →
  v1_axes (PDict d) = inr (lat, lng) →
  ∃ n, size res = S n.
Proof.
  intros Hd.
  assert (Hg : getitem (PDict d) "result" = inr (PDict res))
    by (simpl; by rewrite Hd).
  unfold v1_axes. rewrite Hg, exn_bind_inr. simpl.
  destruct (res !! "location") as [location|] eqn:Hloc; [|discriminate].
  intros _. destruct (size res) as [|n] eqn:Hsize; [|by exists n].
  apply map_size_empty_iff in Hsize. by rewrite Hsize, lookup_empty in Hloc.
Qed.

Lemma v1_parse_json_nonempty self d eo w n :
  len (collection "result" d) = inr (S n) →
  result (BaiduV1._parse_json self (PDict d) eo w) =
  (loc ← BaiduV1.parse_result (PDict d); mret (Some loc)).
Proof.
  intros Hlen. rewrite v1_parse_json_run. simpl.
  unfold collection in Hlen. by rewrite Hlen.
Qed.

Lemma v2_parse_json_nonempty self d eo w n :
  len (collection "results" d) = inr (S n) →
  result (BaiduV2._parse_json self (PDict d) eo w) =
  (loc ← BaiduV2.parse_result (PDict d); mret (Some loc)).
Proof.
  intros Hlen. rewrite v2_parse_json_run. simpl.
  unfold collection in Hlen. by rewrite Hlen.
Qed.

(** The inner function of the second version reads the top-level
    [level] and [location] and keeps the whole response as raw payload. *)
Lemma v2_parse_result_fields d d' :
  d !! "level" = d' !! "level" → d !! "location" = d' !! "location" →
  BaiduV2.parse_result (PDict d') =
  match BaiduV2.parse_result (PDict d) with
  | inr loc => inr {| address := address loc; point := point loc;
                      raw := PDict d' |}
  | inl e => inl e
  end.
Proof.
  intros Hl Hloc. unfold BaiduV2.parse_result.
  assert (getitem (PDict d') "level" = getitem (PDict d) "level") as ->
    by (simpl; by rewrite Hl).
  assert (getitem (PDict d') "location" = getitem (PDict d) "location") as ->
    by (simpl; by rewrite Hloc).
  destruct (getitem (PDict d) "level") as [e|lvl];
    rewrite ?exn_bind_inl, ?exn_bind_inr; [done|].
  destruct (getitem (PDict d) "location") as [e|location];
    rewrite ?exn_bind_inl, ?exn_bind_inr; [done|].
  destruct (getitem location "lat") as [e|lat];
    rewrite ?exn_bind_inl, ?exn_bind_inr; [done|].
  destruct (getitem location "lng") as [e|lng];
    rewrite ?exn_bind_inl, ?exn_bind_inr; [done|].
  by destruct (if truthy _ then _ else _) as [e|[a b]].
Qed.

(** X7.  Once the collection is not empty the status plays no part: the
    same response under any other status, an error status included,
    parses to the same result (in the second version the raw payload,
    which is the whole response, carries the new status). *)
Theorem parse_json_ignores_status (self1 : BaiduV1.t) (self2 : BaiduV2.t)
    d status eo w n :
  (len (collection "result" d) = inr (S n) →
     result (BaiduV1._parse_json self1 (PDict (<["status" := status]> d)) eo w)
     = result (BaiduV1._parse_json self1 (PDict d) eo w)) ∧
  (len (collection "results" d) = inr (S n) →
     result (BaiduV2._parse_json self2 (PDict (<["status" := status]> d)) eo w)
     = with_raw (PDict (<["status" := status]> d))
         (result (BaiduV2._parse_json self2 (PDict d) eo w))).
Proof.
  split; intros Hlen.
  - rewrite (v1_parse_json_nonempty _ d _ _ n Hlen).
    rewrite (v1_parse_json_nonempty _ (<["status" := status]> d) _ _ n)
      by (unfold collection; by rewrite lookup_insert_ne).
    by rewrite (v1_parse_result_only_result (<["status" := status]> d) d)
      by (by rewrite lookup_insert_ne).
  - rewrite (v2_parse_json_nonempty _ d _ _ n Hlen).
    rewrite (v2_parse_json_nonempty _ (<["status" := status]> d) _ _ n)
      by (unfold collection; by rewrite lookup_insert_ne).
    rewrite (v2_parse_result_fields d (<["status" := status]> d))
      by (by rewrite lookup_insert_ne).
    by destruct (BaiduV2.parse_result (PDict d)).
Qed.

(** X8.  The first version returns a Result, and raises nothing, for
    every response whose [result] object holds [location] with [lat]
    and [lng] both truthy and convertible to float: the label is
    [formatted_address], or [None] when the object has none, the raw
    payload is the [result] object, and the pair is fully present. *)
Theorem v1_parse_json_returns self d res lat lng f g eo w :
  d !! "result" = Some (PDict res) →
  v1_axes (PDict d) = inr (lat, lng) →
  truthy lat = true → truthy lng = true →
  float float_of_str lat = inr f → float float_of_str lng = inr g →
  ∃ loc,
    result (BaiduV1._parse_json self (PDict d) eo w) = inr (Some loc) ∧
    address loc = default PNone (res !! "formatted_address") ∧
    raw loc = PDict res ∧
    pair_present (point loc).
Proof.
  intros Hd Hax Hlat Hlng Hf Hg.
  destruct (v1_axes_nonempty _ _ _ _ Hd Hax) as [n Hn].
  rewrite (v1_parse_json_nonempty _ _ _ _ n)
    by (unfold collection; rewrite Hd; simpl; by rewrite Hn).
  rewrite (v1_parse_result_axes _ _ _ _ Hd Hax).
  rewrite (coordinates_complete _ _ _
             (coordinates_both lat lng f g Hlat Hlng Hf Hg)).
  eexists. split; [reflexivity|]. split_and!; try done.
  split; by eexists.
Qed.

(** X9.  The second version returns a Result, and raises nothing, for
    every response with a non-empty [results], a top-level [level] and
    a top-level [location] holding [lat] and [lng] both truthy and
    convertible to float: the label is the top-level [level], the raw
    payload is the whole response, and the pair is fully present. *)
Theorem v2_parse_json_returns self d lvl lat lng f g eo w n :
  len (collection "results" d) = inr (S n) →
  d !! "level" = Some lvl →
  v2_axes (PDict d) = inr (lat, lng) →
  truthy lat = true → truthy lng = true →
  float float_of_str lat = inr f → float float_of_str lng = inr g →
  ∃ loc,
    result (BaiduV2._parse_json self (PDict d) eo w) = inr (Some loc) ∧
    address loc = lvl ∧
    raw loc = PDict d ∧
    pair_present (point loc).
Proof.
  intros Hlen Hd Hax Hlat Hlng Hf Hg.
  rewrite (v2_parse_json_nonempty _ _ _ _ n Hlen).
  rewrite (v2_parse_result_axes _ _ _ _ Hd Hax).
  rewrite (coordinates_complete _ _ _
             (coordinates_both lat lng f g Hlat Hlng Hf Hg)).
  eexists. split; [reflexivity|]. split_and!; try done.
  split; by eexists.
Qed.

(** X10.  When both axes are truthy and one does not convert to a float
    (text that is no number, a list or an object, an integer beyond the
    range of a float), the error of the conversion is what
    [_parse_json] raises, the latitude's first. *)
Theorem parse_json_conversion_error (self1 : BaiduV1.t) (self2 : BaiduV2.t)
    d lat lng e eo w :
  truthy lat = true → truthy lng = true →
  conversion_error lat lng e →
  (∀ res, d !! "result" = Some (PDict res) →
     v1_axes (PDict d) = inr (lat, lng) →
     result (BaiduV1._parse_json self1 (PDict d) eo w) = inl e) ∧
  (∀ lvl n, len (collection "results" d) = inr (S n) →
     d !! "level" = Some lvl →
     v2_axes (PDict d) = inr (lat, lng) →
     result (BaiduV2._parse_json self2 (PDict d) eo w) = inl e).
Proof.
  intros Hlat Hlng He.
  assert (Hstep :
    (if truthy (and_ (or_ lat PNone) (or_ lng PNone)) then
       flat ← float float_of_str (or_ lat PNone);
       flng ← float float_of_str (or_ lng PNone);
       mret (PFloat flat, PFloat flng)
     else mret (or_ lat PNone, or_ lng PNone)) = inl e).
  { unfold and_, or_. rewrite Hlat, Hlng. simpl. rewrite Hlat, Hlng.
    destruct He as [->|(f & -> & Hg)]; [done|].
    by rewrite exn_bind_inr, Hg. }
  split.
  - intros res Hd Hax. destruct (v1_axes_nonempty _ _ _ _ Hd Hax) as [n Hn].
    rewrite (v1_parse_json_nonempty _ _ _ _ n)
      by (unfold collection; rewrite Hd; simpl; by rewrite Hn).
    by rewrite (v1_parse_result_axes _ _ _ _ Hd Hax), Hstep.
  - intros lvl n Hlen Hd Hax.
    rewrite (v2_parse_json_nonempty _ _ _ _ n Hlen).
    by rewrite (v2_parse_result_axes _ _ _ _ Hd Hax), Hstep.
Qed.

Lemma v1_parse_result_raw response loc :
  BaiduV1.parse_result response = inr loc →
  ∃ d res, response = PDict d ∧ d !! "result" = Some (PDict res) ∧
           raw loc = PDict res ∧
           address loc = default PNone (res !! "formatted_address").
Proof.
  unfold BaiduV1.parse_result.
  destruct response as [| | | | | |d]; try discriminate.
  destruct (getitem (PDict d) "result") as [e|r] eqn:Hr; [discriminate|].
  rewrite exn_bind_inr.
  destruct r as [| | | | | |res]; try discriminate.
  change (get (PDict res) "formatted_address" PNone)
    with (inr (default PNone (res !! "formatted_address")) : exn + value).
  rewrite exn_bind_inr.
  destruct (getitem (PDict res) "location") as [e|location];
    rewrite ?exn_bind_inl, ?exn_bind_inr; [discriminate|].
  destruct (getitem location "lat") as [e|lat];
    rewrite ?exn_bind_inl, ?exn_bind_inr; [discriminate|].
  destruct (getitem location "lng") as [e|lng];
    rewrite ?exn_bind_inl, ?exn_bind_inr; [discriminate|].
  destruct (if truthy _ then _ else _) as [e|[a b]];
    rewrite ?exn_bind_inl, ?exn_bind_inr; [discriminate|].
  intros [= <-]. exists d, res. split_and!; try done.
  simpl in Hr. by destruct (d !! "result"); simplify_eq.
Qed.

Lemma v2_parse_result_raw response loc :
  BaiduV2.parse_result response = inr loc →
  ∃ d, response = PDict d ∧ raw loc = response ∧
       d !! "level" = Some (address loc).
Proof.
  unfold BaiduV2.parse_result.
  destruct response as [| | | | | |d]; try discriminate.
  destruct (getitem (PDict d) "level") as [e|lvl] eqn:Hl; [discriminate|].
  rewrite exn_bind_inr.
  destruct (getitem (PDict d) "location") as [e|location];
    rewrite ?exn_bind_inl, ?exn_bind_inr; [discriminate|].
  destruct (getitem location "lat") as [e|lat];
    rewrite ?exn_bind_inl, ?exn_bind_inr; [discriminate|].
  destruct (getitem location "lng") as [e|lng];
    rewrite ?exn_bind_inl, ?exn_bind_inr; [discriminate|].
  destruct (if truthy _ then _ else _) as [e|[a b]];
    rewrite ?exn_bind_inl, ?exn_bind_inr; [discriminate|].
  intros [= <-]. exists d. split_and!; try done.
  simpl in Hl. by destruct (d !! "level"); simplify_eq.
Qed.

(** X11.  The raw payload is always kept beside the normalized fields.
    A Result of the first version holds the [result] object of the
    response, and its label is that object's [formatted_address], or
    [None] when there is none (a missing label is no error); a Result of
    the second version holds the whole response, and its label is the
    top-level [level]. *)
Theorem parse_json_keeps_raw (self1 : BaiduV1.t) (self2 : BaiduV2.t)
    response eo w loc :
  (result (BaiduV1._parse_json self1 response eo w) = inr (Some loc) →
     ∃ d res, response = PDict d ∧ d !! "result" = Some (PDict res) ∧
              raw loc = PDict res ∧
              address loc = default PNone (res !! "formatted_address")) ∧
  (result (BaiduV2._parse_json self2 response eo w) = inr (Some loc) →
     ∃ d, response = PDict d ∧ raw loc = response ∧
          d !! "level" = Some (address loc)).
Proof.
  split; intros Hloc.
  - by eapply v1_parse_result_raw, v1_parse_json_accepts.
  - by eapply v2_parse_result_raw, v2_parse_json_accepts.
Qed.

(** X12.  The raw payload is enough to get the Result again.  In the
    first version any response that carries the raw payload of a Result
    under [result], whatever else it holds, parses to that Result; in
    the second version the raw payload itself does. *)
Theorem parse_json_raw_round_trip (self1 : BaiduV1.t) (self2 : BaiduV2.t)
    response eo w loc eo' w' :
  (result (BaiduV1._parse_json self1 response eo w) = inr (Some loc) →
     ∀ d', d' !! "result" = Some (raw loc) →
       result (BaiduV1._parse_json self1 (PDict d') eo' w')
       = inr (Some loc)) ∧
  (result (BaiduV2._parse_json self2 response eo w) = inr (Some loc) →
     result (BaiduV2._parse_json self2 (raw loc) eo' w') = inr (Some loc)).
Proof.
  split; intros Hloc.
  - intros d' Hd'. apply v1_parse_json_accepts in Hloc.
    destruct (v1_parse_result_raw _ _ Hloc) as (d & res & -> & Hd & Hraw & _).
    destruct (v1_parse_result_inv _ _ Hloc) as (lat & lng & Hax & _).
    destruct (v1_axes_nonempty _ _ _ _ Hd Hax) as [n Hn].
    rewrite Hraw in Hd'.
    rewrite (v1_parse_json_nonempty _ _ _ _ n)
      by (unfold collection; rewrite Hd'; simpl; by rewrite Hn).
    rewrite (v1_parse_result_only_result d' d) by congruence.
    by rewrite Hloc.
  - pose proof (v2_parse_json_accepts _ _ _ _ _ Hloc) as Hp.
    destruct (v2_parse_result_raw _ _ Hp) as (d & -> & -> & _).
    rewrite v2_parse_json_run in Hloc. by rewrite v2_parse_json_run.
Qed.

End ParsingResults.

(** ** Calls: from the arguments to the outcome *)

Section Calls.
Context `{Platform}.

Opaque BaiduV1._parse_json BaiduV2._parse_json.

Lemma v1_geocode_unprepared self query city eo t w e :
  (params ← BaiduV1.geocode_params self query (default PNone city);
   urlencode params) = inl e →
  BaiduV1.geocode self query city eo t w = Outcome w [] (inl e).
Proof.
  unfold BaiduV1.geocode.
  destruct (BaiduV1.geocode_params self query (default PNone city))
    as [e'|params]; run; [by intros [= ->]|].
  destruct (urlencode params) as [e'|qs]; [|discriminate].
  by intros [= ->].
Qed.

Lemma v2_geocode_unprepared self query city eo t w e :
  (params ← BaiduV2.geocode_params self query (default PNone city);
   urlencode params) = inl e →
  BaiduV2.geocode self query city eo t w = Outcome w [] (inl e).
Proof.
  unfold BaiduV2.geocode.
  destruct (BaiduV2.geocode_params self query (default PNone city))
    as [e'|params]; run; [by intros [= ->]|].
  destruct (urlencode params) as [e'|qs]; [|discriminate].
  by intros [= ->].
Qed.

Lemma v1_reverse_unprepared self query eo t w e :
  (params ← BaiduV1.reverse_params self query; urlencode params) = inl e →
  BaiduV1.reverse self query eo t w = Outcome w [] (inl e).
Proof.
  unfold BaiduV1.reverse.
  destruct (BaiduV1.reverse_params self query) as [e'|params]; run;
    [by intros [= ->]|].
  destruct (urlencode params) as [e'|qs]; [|discriminate].
  by intros [= ->].
Qed.

Lemma v2_reverse_unprepared self query coordtype eo t w e :
  (params ← BaiduV2.reverse_params self query
              (default (PStr "bd09ll") coordtype);
   urlencode params) = inl e →
  BaiduV2.reverse self query coordtype eo t w = Outcome w [] (inl e).
Proof.
  unfold BaiduV2.reverse.
  destruct (BaiduV2.reverse_params self query _) as [e'|params]; run;
    [by intros [= ->]|].
  destruct (urlencode params) as [e'|qs]; [|discriminate].
  by intros [= ->].
Qed.

Lemma v1_geocode_prepared self query city eo t w qs :
  (params ← BaiduV1.geocode_params self query (default PNone city);
   urlencode params) = inr qs →
  let url := BaiduV1.api self ++ "?" ++ qs in
  let cw := _call_geocoder (BaiduV1.base self) url (default PNone t) w in
  BaiduV1.geocode self query city eo t w =
  Outcome cw.1
    (call_events "BaiduV1" "geocode" url (default PNone t) DEBUG cw.2)
    (response ← cw.2;
     result (BaiduV1._parse_json self response eo cw.1)).
Proof.
  unfold BaiduV1.geocode.
  destruct (BaiduV1.geocode_params self query (default PNone city))
    as [e'|params]; run; [discriminate|].
  destruct (urlencode params) as [e'|qs']; [discriminate|].
  intros [= ->]. run.
  destruct (_call_geocoder _ _ _ w) as [w' [e|response]]; [reflexivity|].
  run. rewrite !v1_parse_json_run. reflexivity.
Qed.

Lemma v2_geocode_prepared self query city eo t w qs :
  (params ← BaiduV2.geocode_params self query (default PNone city);
   urlencode params) = inr qs →
  let url := BaiduV2.api self ++ "?" ++ qs in
  let cw := _call_geocoder (BaiduV2.base self) url (default PNone t) w in
  BaiduV2.geocode self query city eo t w =
  Outcome cw.1
    (call_events "BaiduV2" "geocode" url (default PNone t) WARNING cw.2)
    (response ← cw.2;
     result (BaiduV2._parse_json self response eo cw.1)).
Proof.
  unfold BaiduV2.geocode.
  destruct (BaiduV2.geocode_params self query (default PNone city))
    as [e'|params]; run; [discriminate|].
  destruct (urlencode params) as [e'|qs']; [discriminate|].
  intros [= ->]. run.
  destruct (_call_geocoder _ _ _ w) as [w' [e|response]]; [reflexivity|].
  run. rewrite !v2_parse_json_run. reflexivity.
Qed.

Lemma v1_reverse_prepared self query eo t w qs :
  (params ← BaiduV1.reverse_params self query; urlencode params) = inr qs →
  let url := BaiduV1.api self ++ "?" ++ qs in
  let cw := _call_geocoder (BaiduV1.base self) url (default PNone t) w in
  BaiduV1.reverse self query eo t w =
  Outcome cw.1
    (call_events "BaiduV1" "reverse" url (default PNone t) DEBUG cw.2)
    (response ← cw.2;
     result (BaiduV1._parse_json self response eo cw.1)).
Proof.
  unfold BaiduV1.reverse.
  destruct (BaiduV1.reverse_params self query) as [e'|params]; run;
    [discriminate|].
  destruct (urlencode params) as [e'|qs']; [discriminate|].
  intros [= ->]. run. rewrite append_empty_r.
  destruct (_call_geocoder _ _ _ w) as [w' [e|response]]; [reflexivity|].
  run. rewrite !v1_parse_json_run. reflexivity.
Qed.

Lemma v2_reverse_prepared self query coordtype eo t w qs :
  (params ← BaiduV2.reverse_params self query
              (default (PStr "bd09ll") coordtype);
   urlencode params) = inr qs →
  let url := BaiduV2.api self ++ "?" ++ qs in
  let cw := _call_geocoder (BaiduV2.base self) url (default PNone t) w in
  BaiduV2.reverse self query coordtype eo t w =
  Outcome cw.1
    (call_events "BaiduV2" "reverse" url (default PNone t) WARNING cw.2)
    (response ← cw.2;
     result (BaiduV2._parse_json self response eo cw.1)).
Proof.
  unfold BaiduV2.reverse.
  destruct (BaiduV2.reverse_params self query _) as [e'|params]; run;
    [discriminate|].
  destruct (urlencode params) as [e'|qs']; [discriminate|].
  intros [= ->]. run. rewrite append_empty_r.
  destruct (_call_geocoder _ _ _ w) as [w' [e|response]]; [reflexivity|].
  run. rewrite !v2_parse_json_run. reflexivity.
Qed.

Transparent BaiduV1._parse_json BaiduV2._parse_json.

Lemma plain_cons c s : plain (String c s) ↔ c ≠ "%"%char ∧ plain s.
Proof.
  unfold plain. simpl. rewrite not_elem_of_cons. intuition congruence.
Qed.

Lemma str_mod_plain s : plain s → str_mod s [] = inr s.
Proof.
  induction s as [|c s IH]; [done|].
  intros [Hc Hs]%plain_cons. simpl.
  apply Ascii.eqb_neq in Hc. rewrite Hc, (IH Hs). reflexivity.
Qed.

Lemma str_mod_plain_left_over s a l :
  plain s → str_mod s (a :: l) = inl TypeError.
Proof.
  induction s as [|c s IH]; [done|].
  intros [Hc Hs]%plain_cons. simpl.
  apply Ascii.eqb_neq in Hc. rewrite Hc, (IH Hs). reflexivity.
Qed.

Lemma str_mod_slot pre post q :
  plain pre → plain post →
  str_mod (pre ++ "%s" ++ post) [q] = inr (pre ++ q ++ post).
Proof.
  intros Hpre Hpost. induction pre as [|c pre IH].
  - change (str_mod (String "%" (String "s" post)) [q] = inr (q ++ post)).
    simpl. by rewrite (str_mod_plain _ Hpost).
  - apply plain_cons in Hpre as [Hc Hpre].
    change (str_mod (String c (pre ++ "%s" ++ post)) [q]
            = inr (String c (pre ++ q ++ post))).
    simpl. apply Ascii.eqb_neq in Hc. rewrite Hc, (IH Hpre). reflexivity.
Qed.

(** X13.  A template made of text around one "%s" slot puts the query
    in the slot: the [address] parameter of [geocode] is the text
    before, the query as it is, and the text after (the query alone
    under the default template "%s"), in both versions. *)
Theorem geocode_address_fills_slot (self1 : BaiduV1.t) (self2 : BaiduV2.t)
    pre post query city :
  plain pre → plain post →
  (Geocoder.format_string (BaiduV1.base self1) = pre ++ "%s" ++ post →
     ∃ params,
       BaiduV1.geocode_params self1 query city = inr params ∧
       params !! "address" = Some (PStr (pre ++ query ++ post))) ∧
  (Geocoder.format_string (BaiduV2.base self2) = pre ++ "%s" ++ post →
     ∃ params,
       BaiduV2.geocode_params self2 query city = inr params ∧
       params !! "address" = Some (PStr (pre ++ query ++ post))).
Proof.
  intros Hpre Hpost. split; intros Hfmt.
  - destruct (v1_geocode_params_spec self1 query (Some city)
                (pre ++ query ++ post)) as (params & Hp & Ha & _).
    { rewrite Hfmt. by apply str_mod_slot. }
    by exists params.
  - destruct (v2_geocode_params_spec self2 query (Some city)
                (pre ++ query ++ post)) as (params & Hp & Ha & _).
    { rewrite Hfmt. by apply str_mod_slot. }
    by exists params.
Qed.

(** X14.  A template without any conversion specifier cannot take the
    query: [geocode] raises [TypeError] at once, with nothing logged,
    nothing requested and the network untouched, in both versions. *)
Theorem geocode_template_without_slot (self1 : BaiduV1.t) (self2 : BaiduV2.t)
    query city eo t w :
  (plain (Geocoder.format_string (BaiduV1.base self1)) →
     BaiduV1.geocode self1 query city eo t w = Outcome w [] (inl TypeError)) ∧
  (plain (Geocoder.format_string (BaiduV2.base self2)) →
     BaiduV2.geocode self2 query city eo t w = Outcome w [] (inl TypeError)).
Proof.
  split; intros Hplain.
  - apply v1_geocode_unprepared. unfold BaiduV1.geocode_params.
    by rewrite (str_mod_plain_left_over _ query [] Hplain).
  - apply v2_geocode_unprepared. unfold BaiduV2.geocode_params.
    by rewrite (str_mod_plain_left_over _ query [] Hplain).
Qed.

(** X15.  What fails while the request is prepared is raised as it is,
    before anything is logged or requested: in [reverse] an error of the
    point coercion, and in [geocode] and [reverse] an error of the URL
    encoder on the parameters built. *)
Theorem preparation_errors_propagate (self1 : BaiduV1.t) (self2 : BaiduV2.t)
    query point city coordtype eo t w e :
  (_coerce_point_to_string point = inl e →
     BaiduV1.reverse self1 point eo t w = Outcome w [] (inl e) ∧
     BaiduV2.reverse self2 point coordtype eo t w = Outcome w [] (inl e)) ∧
  (∀ params,
     BaiduV1.geocode_params self1 query (default PNone city) = inr params →
     urlencode params = inl e →
     BaiduV1.geocode self1 query city eo t w = Outcome w [] (inl e)) ∧
  (∀ params,
     BaiduV2.geocode_params self2 query (default PNone city) = inr params →
     urlencode params = inl e →
     BaiduV2.geocode self2 query city eo t w = Outcome w [] (inl e)) ∧
  (∀ params,
     BaiduV1.reverse_params self1 point = inr params →
     urlencode params = inl e →
     BaiduV1.reverse self1 point eo t w = Outcome w [] (inl e)) ∧
  (∀ params,
     BaiduV2.reverse_params self2 point (default (PStr "bd09ll") coordtype)
       = inr params →
     urlencode params = inl e →
     BaiduV2.reverse self2 point coordtype eo t w = Outcome w [] (inl e)).
Proof.
  split_and!.
  - intros Hc. split.
    + apply v1_reverse_unprepared. unfold BaiduV1.reverse_params.
      by rewrite Hc.
    + apply v2_reverse_unprepared. unfold BaiduV2.reverse_params.
      by rewrite Hc.
  - intros params Hp He. apply v1_geocode_unprepared. by rewrite Hp.
  - intros params Hp He. apply v2_geocode_unprepared. by rewrite Hp.
  - intros params Hp He. apply v1_reverse_unprepared. by rewrite Hp.
  - intros params Hp He. apply v2_reverse_unprepared. by rewrite Hp.
Qed.

(** X16.  An error of the transport is raised as it is, not translated
    and not retried: once the request is prepared, [geocode] and
    [reverse] of both versions log the URL, hand it to the transport
    once, and on its failure end with the transport's error, the
    network as the transport left it, and no further event. *)
Theorem transport_error_propagates (self1 : BaiduV1.t) (self2 : BaiduV2.t)
    query point city coordtype eo t w qs w' e :
  let timeout := default PNone t in
  let url1 := BaiduV1.api self1 ++ "?" ++ qs in
  let url2 := BaiduV2.api self2 ++ "?" ++ qs in
  ((params ← BaiduV1.geocode_params self1 query (default PNone city);
    urlencode params) = inr qs →
   _call_geocoder (BaiduV1.base self1) url1 timeout w = (w', inl e) →
   BaiduV1.geocode self1 query city eo t w =
   Outcome w' [url_log "BaiduV1" "geocode" url1; Request url1 timeout]
     (inl e)) ∧
  ((params ← BaiduV2.geocode_params self2 query (default PNone city);
    urlencode params) = inr qs →
   _call_geocoder (BaiduV2.base self2) url2 timeout w = (w', inl e) →
   BaiduV2.geocode self2 query city eo t w =
   Outcome w' [url_log "BaiduV2" "geocode" url2; Request url2 timeout]
     (inl e)) ∧
  ((params ← BaiduV1.reverse_params self1 point; urlencode params) = inr qs →
   _call_geocoder (BaiduV1.base self1) url1 timeout w = (w', inl e) →
   BaiduV1.reverse self1 point eo t w =
   Outcome w' [url_log "BaiduV1" "reverse" url1; Request url1 timeout]
     (inl e)) ∧
  ((params ← BaiduV2.reverse_params self2 point
               (default (PStr "bd09ll") coordtype);
    urlencode params) = inr qs →
   _call_geocoder (BaiduV2.base self2) url2 timeout w = (w', inl e) →
   BaiduV2.reverse self2 point coordtype eo t w =
   Outcome w' [url_log "BaiduV2" "reverse" url2; Request url2 timeout]
     (inl e)).
Proof.
  intros timeout url1 url2. subst timeout url1 url2. split_and!.
  - intros Hqs Hcall. rewrite (v1_geocode_prepared _ _ _ _ _ _ _ Hqs).
    simpl. by rewrite Hcall.
  - intros Hqs Hcall. rewrite (v2_geocode_prepared _ _ _ _ _ _ _ Hqs).
    simpl. by rewrite Hcall.
  - intros Hqs Hcall. rewrite (v1_reverse_prepared _ _ _ _ _ _ Hqs).
    simpl. by rewrite Hcall.
  - intros Hqs Hcall. rewrite (v2_reverse_prepared _ _ _ _ _ _ _ Hqs).
    simpl. by rewrite Hcall.
Qed.

(** X17.  When the transport answers, a call is the parser applied to
    the answer: [geocode] and [reverse] of both versions return what
    [_parse_json] returns or raises on the decoded response, leave the
    network as the transport left it, and their events are the URL
    logged, the one request, and the response logged by the parser. *)
Theorem call_is_parse_of_response (self1 : BaiduV1.t) (self2 : BaiduV2.t)
    query point city coordtype eo t w qs w' response :
  let timeout := default PNone t in
  let url1 := BaiduV1.api self1 ++ "?" ++ qs in
  let url2 := BaiduV2.api self2 ++ "?" ++ qs in
  ((params ← BaiduV1.geocode_params self1 query (default PNone city);
    urlencode params) = inr qs →
   _call_geocoder (BaiduV1.base self1) url1 timeout w = (w', inr response) →
   BaiduV1.geocode self1 query city eo t w =
   Outcome w'
     [url_log "BaiduV1" "geocode" url1; Request url1 timeout;
      Log DEBUG response []]
     (result (BaiduV1._parse_json self1 response eo w'))) ∧
  ((params ← BaiduV2.geocode_params self2 query (default PNone city);
    urlencode params) = inr qs →
   _call_geocoder (BaiduV2.base self2) url2 timeout w = (w', inr response) →
   BaiduV2.geocode self2 query city eo t w =
   Outcome w'
     [url_log "BaiduV2" "geocode" url2; Request url2 timeout;
      Log WARNING response []]
     (result (BaiduV2._parse_json self2 response eo w'))) ∧
  ((params ← BaiduV1.reverse_params self1 point; urlencode params) = inr qs →
   _call_geocoder (BaiduV1.base self1) url1 timeout w = (w', inr response) →
   BaiduV1.reverse self1 point eo t w =
   Outcome w'
     [url_log "BaiduV1" "reverse" url1; Request url1 timeout;
      Log DEBUG response []]
     (result (BaiduV1._parse_json self1 response eo w'))) ∧
  ((params ← BaiduV2.reverse_params self2 point
               (default (PStr "bd09ll") coordtype);
    urlencode params) = inr qs →
   _call_geocoder (BaiduV2.base self2) url2 timeout w = (w', inr response) →
   BaiduV2.reverse self2 point coordtype eo t w =
   Outcome w'
     [url_log "BaiduV2" "reverse" url2; Request url2 timeout;
      Log WARNING response []]
     (result (BaiduV2._parse_json self2 response eo w'))).
Proof.
  intros timeout url1 url2. subst timeout url1 url2. split_and!.
  - intros Hqs Hcall. rewrite (v1_geocode_prepared _ _ _ _ _ _ _ Hqs).
    simpl. by rewrite Hcall.
  - intros Hqs Hcall. rewrite (v2_geocode_prepared _ _ _ _ _ _ _ Hqs).
    simpl. by rewrite Hcall.
  - intros Hqs Hcall. rewrite (v1_reverse_prepared _ _ _ _ _ _ Hqs).
    simpl. by rewrite Hcall.
  - intros Hqs Hcall. rewrite (v2_reverse_prepared _ _ _ _ _ _ _ Hqs).
    simpl. by rewrite Hcall.
Qed.

(** X18.  No call makes more than one request, and a call that makes
    none has logged nothing and left the network untouched: this holds
    for [geocode] and [reverse] of both versions, whatever they are
    given. *)
Theorem calls_request_at_most_once (self1 : BaiduV1.t) (self2 : BaiduV2.t)
    query point city coordtype eo t w :
  Forall (λ o : outcome (option Location),
            (length (requests (trace o)) ≤ 1)%nat ∧
            (requests (trace o) = [] → trace o = [] ∧ world_after o = w))
    [ BaiduV1.geocode self1 query city eo t w;
      BaiduV2.geocode self2 query city eo t w;
      BaiduV1.reverse self1 point eo t w;
      BaiduV2.reverse self2 point coordtype eo t w ].
Proof.
  rewrite !Forall_cons, Forall_nil.
  split; [|split; [|split; [|split; [|done]]]].
  - destruct (params ← BaiduV1.geocode_params self1 query (default PNone city);
              urlencode params) as [e|qs] eqn:Hqs.
    + rewrite (v1_geocode_unprepared _ _ _ _ _ _ _ Hqs). simpl.
      split; [lia|done].
    + rewrite (v1_geocode_prepared _ _ _ _ _ _ _ Hqs). simpl.
      destruct (_call_geocoder _ _ _ w) as [w' [e|response]]; simpl;
        (split; [lia|discriminate]).
  - destruct (params ← BaiduV2.geocode_params self2 query (default PNone city);
              urlencode params) as [e|qs] eqn:Hqs.
    + rewrite (v2_geocode_unprepared _ _ _ _ _ _ _ Hqs). simpl.
      split; [lia|done].
    + rewrite (v2_geocode_prepared _ _ _ _ _ _ _ Hqs). simpl.
      destruct (_call_geocoder _ _ _ w) as [w' [e|response]]; simpl;
        (split; [lia|discriminate]).
  - destruct (params ← BaiduV1.reverse_params self1 point; urlencode params)
      as [e|qs] eqn:Hqs.
    + rewrite (v1_reverse_unprepared _ _ _ _ _ _ Hqs). simpl.
      split; [lia|done].
    + rewrite (v1_reverse_prepared _ _ _ _ _ _ Hqs). simpl.
      destruct (_call_geocoder _ _ _ w) as [w' [e|response]]; simpl;
        (split; [lia|discriminate]).
  - destruct (params ← BaiduV2.reverse_params self2 point
                         (default (PStr "bd09ll") coordtype);
              urlencode params) as [e|qs] eqn:Hqs.
    + rewrite (v2_reverse_unprepared _ _ _ _ _ _ _ Hqs). simpl.
      split; [lia|done].
    + rewrite (v2_reverse_prepared _ _ _ _ _ _ _ Hqs). simpl.
      destruct (_call_geocoder _ _ _ w) as [w' [e|response]]; simpl;
        (split; [lia|discriminate]).
Qed.

(** X19.  The two versions build the same parameters up to the name of
    the credential: for instances with the same template and the same
    credential, the parameters of [geocode] in the second version are
    those of the first with [key] renamed to [ak] (and it fails as the
    first does), and those of [reverse] are the renamed ones plus
    [coordtype]. *)
Theorem v2_params_rename_v1 (self1 : BaiduV1.t) (self2 : BaiduV2.t)
    query point city coordtype :
  Geocoder.format_string (BaiduV2.base self2)
    = Geocoder.format_string (BaiduV1.base self1) →
  BaiduV2.ak self2 = BaiduV1.key self1 →
  match BaiduV1.geocode_params self1 query city with
  | inr params =>
      BaiduV2.geocode_params self2 query city
      = inr (<["ak" := PStr (BaiduV1.key self1)]> (delete "key" params))
  | inl e => BaiduV2.geocode_params self2 query city = inl e
  end ∧
  match BaiduV1.reverse_params self1 point with
  | inr params =>
      BaiduV2.reverse_params self2 point coordtype
      = inr (<["coordtype" := coordtype]>
               (<["ak" := PStr (BaiduV1.key self1)]> (delete "key" params)))
  | inl e => BaiduV2.reverse_params self2 point coordtype = inl e
  end.
Proof.
  intros Hfmt Hak. split.
  - unfold BaiduV1.geocode_params, BaiduV2.geocode_params.
    rewrite Hfmt, Hak.
    destruct (str_mod _ _) as [e|a]; [done|].
    rewrite !exn_bind_inr. destruct (truthy city); reflexivity.
  - unfold BaiduV1.reverse_params, BaiduV2.reverse_params. rewrite Hak.
    destruct (_coerce_point_to_string point) as [e|l]; [done|].
    rewrite !exn_bind_inr. reflexivity.
Qed.

End Calls.

(** ** The further properties on the samples *)

Import Samples.

Lemma parse_json_rejects_non_object_witness :
  (∀ d, PList [] ≠ PDict d) ∧
  result (@BaiduV1._parse_json Canned.platform v1 (PList []) None [])
    = inl AttributeError ∧
  result (@BaiduV2._parse_json Canned.platform v2 (PList []) None [])
    = inl AttributeError.
Proof.
  assert (Hnot : ∀ d, PList [] ≠ PDict d) by (intros d; discriminate).
  split; [exact Hnot|].
  exact (@parse_json_rejects_non_object Canned.platform v1 v2 (PList [])
           None [] Hnot).
Defined.

Lemma parse_json_scalar_collection_witness :
  scalar PNone = true ∧
  v1_null_dict !! "result" = Some PNone ∧
  result (@BaiduV1._parse_json Canned.platform v1 (PDict v1_null_dict) None [])
    = inl TypeError.
Proof.
  assert (Hd : v1_null_dict !! "result" = Some PNone)
    by (vm_compute; reflexivity).
  split; [reflexivity|]. split; [exact Hd|].
  exact (proj1 (@parse_json_scalar_collection Canned.platform v1 v2
                  v1_null_dict PNone None [] eq_refl) Hd).
Defined.

Lemma v1_parse_json_list_result_witness :
  v1_list_dict !! "result" = Some (PList [v2_entry (PInt 39) (PInt 116)]) ∧
  result (@BaiduV1._parse_json Canned.platform v1 (PDict v1_list_dict) None [])
    = inl AttributeError.
Proof.
  assert (Hd : v1_list_dict !! "result"
               = Some (PList [v2_entry (PInt 39) (PInt 116)]))
    by (vm_compute; reflexivity).
  split; [exact Hd|].
  apply (@v1_parse_json_list_result Canned.platform v1 v1_list_dict _ None []
           Hd).
  left. by eexists _, _.
Defined.

Lemma parse_json_missing_status_witness :
  (∅ : gmap string value) !! "status" = None ∧
  len (collection "result" ∅) = inr 0%nat ∧
  result (@BaiduV1._parse_json Canned.platform v1 (PDict ∅) None [])
    = inl (GeocoderQueryError "Unknown error.").
Proof.
  split; [reflexivity|]. split; [reflexivity|].
  exact (proj1 (@parse_json_missing_status Canned.platform v1 v2 ∅ None []
                  eq_refl) eq_refl).
Defined.

Lemma parse_json_ignores_status_witness :
  len (collection "result" (v1_dict (PInt 39) (PInt 116))) = inr 2%nat ∧
  result (@BaiduV1._parse_json Canned.platform v1
            (PDict (<["status" := PStr "INVILID_KEY"]>
                      (v1_dict (PInt 39) (PInt 116)))) None [])
  = result (@BaiduV1._parse_json Canned.platform v1
              (PDict (v1_dict (PInt 39) (PInt 116))) None []).
Proof.
  assert (Hlen : len (collection "result" (v1_dict (PInt 39) (PInt 116)))
                 = inr 2%nat) by (vm_compute; reflexivity).
  split; [exact Hlen|].
  exact (proj1 (@parse_json_ignores_status Canned.platform v1 v2
                  (v1_dict (PInt 39) (PInt 116)) (PStr "INVILID_KEY")
                  None [] 1%nat) Hlen).
Defined.

Lemma v1_parse_json_returns_witness :
  v1_dict (PInt 39) (PInt 116) !! "result"
    = Some (PDict (v1_result_dict (PInt 39) (PInt 116))) ∧
  v1_axes (PDict (v1_dict (PInt 39) (PInt 116))) = inr (PInt 39, PInt 116) ∧
  truthy (PInt 39) = true ∧ truthy (PInt 116) = true ∧
  float (@float_of_str Canned.platform) (PInt 39) = inr f39 ∧
  float (@float_of_str Canned.platform) (PInt 116) = inr f116 ∧
  ∃ loc,
    result (@BaiduV1._parse_json Canned.platform v1
              (PDict (v1_dict (PInt 39) (PInt 116))) None [])
      = inr (Some loc) ∧
    address loc
      = default PNone
          (v1_result_dict (PInt 39) (PInt 116) !! "formatted_address") ∧
    raw loc = PDict (v1_result_dict (PInt 39) (PInt 116)) ∧
    pair_present (point loc).
Proof.
  assert (Hd : v1_dict (PInt 39) (PInt 116) !! "result"
               = Some (PDict (v1_result_dict (PInt 39) (PInt 116))))
    by (vm_compute; reflexivity).
  assert (Hax : v1_axes (PDict (v1_dict (PInt 39) (PInt 116)))
                = inr (PInt 39, PInt 116)) by (vm_compute; reflexivity).
  assert (Hf : float (@float_of_str Canned.platform) (PInt 39) = inr f39)
    by (vm_compute; reflexivity).
  assert (Hg : float (@float_of_str Canned.platform) (PInt 116) = inr f116)
    by (vm_compute; reflexivity).
  split; [exact Hd|]. split; [exact Hax|].
  split; [reflexivity|]. split; [reflexivity|].
  split; [exact Hf|]. split; [exact Hg|].
  exact (@v1_parse_json_returns Canned.platform v1
           (v1_dict (PInt 39) (PInt 116))
           (v1_result_dict (PInt 39) (PInt 116)) (PInt 39) (PInt 116)
           f39 f116 None [] Hd Hax eq_refl eq_refl Hf Hg).
Defined.

Lemma v2_parse_json_returns_witness :
  len (collection "results" (v2_flat_dict (PFloat f39_5) (PFloat f116_25)))
    = inr 1%nat ∧
  v2_flat_dict (PFloat f39_5) (PFloat f116_25) !! "level"
    = Some (PStr "street") ∧
  v2_axes (PDict (v2_flat_dict (PFloat f39_5) (PFloat f116_25)))
    = inr (PFloat f39_5, PFloat f116_25) ∧
  truthy (PFloat f39_5) = true ∧ truthy (PFloat f116_25) = true ∧
  float (@float_of_str Canned.platform) (PFloat f39_5) = inr f39_5 ∧
  float (@float_of_str Canned.platform) (PFloat f116_25) = inr f116_25 ∧
  ∃ loc,
    result (@BaiduV2._parse_json Canned.platform v2
              (PDict (v2_flat_dict (PFloat f39_5) (PFloat f116_25))) None [])
      = inr (Some loc) ∧
    address loc = PStr "street" ∧
    raw loc = PDict (v2_flat_dict (PFloat f39_5) (PFloat f116_25)) ∧
    pair_present (point loc).
Proof.
  assert (Hlen : len (collection "results"
                        (v2_flat_dict (PFloat f39_5) (PFloat f116_25)))
                 = inr 1%nat) by (vm_compute; reflexivity).
  assert (Hd : v2_flat_dict (PFloat f39_5) (PFloat f116_25) !! "level"
               = Some (PStr "street")) by (vm_compute; reflexivity).
  assert (Hax : v2_axes (PDict (v2_flat_dict (PFloat f39_5) (PFloat f116_25)))
                = inr (PFloat f39_5, PFloat f116_25))
    by (vm_compute; reflexivity).
  split; [exact Hlen|]. split; [exact Hd|]. split; [exact Hax|].
  split; [reflexivity|]. split; [reflexivity|].
  split; [reflexivity|]. split; [reflexivity|].
  exact (@v2_parse_json_returns Canned.platform v2
           (v2_flat_dict (PFloat f39_5) (PFloat f116_25)) (PStr "street")
           (PFloat f39_5) (PFloat f116_25) f39_5 f116_25 None [] 0%nat
           Hlen Hd Hax eq_refl eq_refl eq_refl eq_refl).
Defined.

Lemma parse_json_conversion_error_witness :
  truthy (PList [PInt 1]) = true ∧ truthy (PInt 5) = true ∧
  @conversion_error Canned.platform (PList [PInt 1]) (PInt 5) TypeError ∧
  v1_dict (PList [PInt 1]) (PInt 5) !! "result"
    = Some (PDict (v1_result_dict (PList [PInt 1]) (PInt 5))) ∧
  v1_axes (PDict (v1_dict (PList [PInt 1]) (PInt 5)))
    = inr (PList [PInt 1], PInt 5) ∧
  result (@BaiduV1._parse_json Canned.platform v1
            (PDict (v1_dict (PList [PInt 1]) (PInt 5))) None [])
  = inl TypeError.
Proof.
  assert (He : @conversion_error Canned.platform (PList [PInt 1]) (PInt 5)
                 TypeError) by (left; reflexivity).
  assert (Hd : v1_dict (PList [PInt 1]) (PInt 5) !! "result"
               = Some (PDict (v1_result_dict (PList [PInt 1]) (PInt 5))))
    by (vm_compute; reflexivity).
  assert (Hax : v1_axes (PDict (v1_dict (PList [PInt 1]) (PInt 5)))
                = inr (PList [PInt 1], PInt 5)) by (vm_compute; reflexivity).
  split; [reflexivity|]. split; [reflexivity|]. split; [exact He|].
  split; [exact Hd|]. split; [exact Hax|].
  exact (proj1 (@parse_json_conversion_error Canned.platform v1 v2
                  (v1_dict (PList [PInt 1]) (PInt 5)) (PList [PInt 1])
                  (PInt 5) TypeError None [] eq_refl eq_refl He) _ Hd Hax).
Defined.

Lemma parse_json_keeps_raw_witness :
  result (@BaiduV1._parse_json Canned.platform v1
            (v1_payload (PInt 39) (PInt 116)) None [])
    = inr (Some v1_located) ∧
  ∃ d res,
    v1_payload (PInt 39) (PInt 116) = PDict d ∧
    d !! "result" = Some (PDict res) ∧
    raw v1_located = PDict res ∧
    address v1_located = default PNone (res !! "formatted_address").
Proof.
  assert (Hloc : result (@BaiduV1._parse_json Canned.platform v1
                           (v1_payload (PInt 39) (PInt 116)) None [])
                 = inr (Some v1_located)) by (vm_compute; reflexivity).
  split; [exact Hloc|].
  exact (proj1 (@parse_json_keeps_raw Canned.platform v1 v2 _ None []
                  v1_located) Hloc).
Defined.

Lemma parse_json_raw_round_trip_witness :
  result (@BaiduV1._parse_json Canned.platform v1
            (v1_payload (PInt 39) (PInt 116)) None [])
    = inr (Some v1_located) ∧
  ({[ "status" := PStr "INVILID_KEY"; "result" := raw v1_located ]}
     : gmap string value) !! "result" = Some (raw v1_located) ∧
  result (@BaiduV1._parse_json Canned.platform v1
            (PDict {[ "status" := PStr "INVILID_KEY";
                      "result" := raw v1_located ]}) (Some false) [PNone])
    = inr (Some v1_located).
Proof.
  assert (Hloc : result (@BaiduV1._parse_json Canned.platform v1
                           (v1_payload (PInt 39) (PInt 116)) None [])
                 = inr (Some v1_located)) by (vm_compute; reflexivity).
  assert (Hd : ({[ "status" := PStr "INVILID_KEY";
                   "result" := raw v1_located ]} : gmap string value)
               !! "result" = Some (raw v1_located))
    by (vm_compute; reflexivity).
  split; [exact Hloc|]. split; [exact Hd|].
  exact (proj1 (@parse_json_raw_round_trip Canned.platform v1 v2 _ None []
                  v1_located (Some false) [PNone]) Hloc _ Hd).
Defined.

Lemma plain_mountain_view : plain ", Mountain View, CA".
Proof.
  unfold plain. simpl. intros Hin.
  repeat (apply elem_of_cons in Hin as [Heq|Hin]; [discriminate|]).
  by apply elem_of_nil in Hin.
Defined.

Lemma plain_no_slot : plain "Mountain View, CA".
Proof.
  unfold plain. simpl. intros Hin.
  repeat (apply elem_of_cons in Hin as [Heq|Hin]; [discriminate|]).
  by apply elem_of_nil in Hin.
Defined.

Lemma plain_empty : plain "".
Proof. unfold plain. simpl. apply not_elem_of_nil. Defined.

Lemma geocode_address_fills_slot_witness :
  plain "" ∧ plain ", Mountain View, CA" ∧
  Geocoder.format_string (BaiduV1.base v1_mountain_view)
    = "" ++ "%s" ++ ", Mountain View, CA" ∧
  ∃ params,
    BaiduV1.geocode_params v1_mountain_view "1600 Amphitheatre Pkwy" PNone
      = inr params ∧
    params !! "address"
      = Some (PStr ("" ++ "1600 Amphitheatre Pkwy" ++ ", Mountain View, CA")).
Proof.
  split; [exact plain_empty|]. split; [exact plain_mountain_view|].
  split; [reflexivity|].
  exact (proj1 (geocode_address_fills_slot v1_mountain_view v2
                  "" ", Mountain View, CA" "1600 Amphitheatre Pkwy" PNone
                  plain_empty plain_mountain_view) eq_refl).
Defined.

Lemma geocode_template_without_slot_witness :
  plain (Geocoder.format_string (BaiduV1.base v1_no_slot)) ∧
  @BaiduV1.geocode Canned.platform v1_no_slot "abc" None None None []
    = @Outcome Canned.platform _ [] [] (inl TypeError).
Proof.
  split; [exact plain_no_slot|].
  exact (proj1 (@geocode_template_without_slot Canned.platform v1_no_slot v2
                  "abc" None None None []) plain_no_slot).
Defined.

Lemma preparation_errors_propagate_witness :
  Canned.coerce (PointSeq []) = inl ValueError ∧
  @BaiduV1.reverse Canned.platform v1 (PointSeq []) None None []
    = @Outcome Canned.platform _ [] [] (inl ValueError) ∧
  @BaiduV2.reverse Canned.platform v2 (PointSeq []) None None None []
    = @Outcome Canned.platform _ [] [] (inl ValueError).
Proof.
  split; [reflexivity|].
  exact (proj1 (@preparation_errors_propagate Canned.platform v1 v2 "abc"
                  (PointSeq []) None None None None [] ValueError) eq_refl).
Defined.

Lemma transport_error_propagates_witness :
  (params ← BaiduV1.geocode_params v1 "abc" PNone; Canned.encode params)
    = inr "output=json&key=k&address=abc" ∧
  Canned.call (BaiduV1.base v1)
    (BaiduV1.api v1 ++ "?" ++ "output=json&key=k&address=abc") PNone []
    = ([], inl (Other "GeocoderServiceError" "no response")) ∧
  @BaiduV1.geocode Canned.platform v1 "abc" None None None []
  = @Outcome Canned.platform _ []
      [url_log "BaiduV1" "geocode"
         (BaiduV1.api v1 ++ "?" ++ "output=json&key=k&address=abc");
       Request (BaiduV1.api v1 ++ "?" ++ "output=json&key=k&address=abc")
         PNone]
      (inl (Other "GeocoderServiceError" "no response")).
Proof.
  assert (Hqs : (params ← BaiduV1.geocode_params v1 "abc" PNone;
                 Canned.encode params)
                = inr "output=json&key=k&address=abc")
    by (vm_compute; reflexivity).
  split; [exact Hqs|]. split; [reflexivity|].
  exact (proj1 (@transport_error_propagates Canned.platform v1 v2 "abc"
                  (PointText "0,0") None None None None []
                  "output=json&key=k&address=abc" []
                  (Other "GeocoderServiceError" "no response"))
           Hqs eq_refl).
Defined.

Lemma call_is_parse_of_response_witness :
  (params ← BaiduV1.geocode_params v1 "abc" PNone; Canned.encode params)
    = inr "output=json&key=k&address=abc" ∧
  Canned.call (BaiduV1.base v1)
    (BaiduV1.api v1 ++ "?" ++ "output=json&key=k&address=abc") PNone
    [v1_payload (PInt 39) (PInt 116)]
    = ([], inr (v1_payload (PInt 39) (PInt 116))) ∧
  @BaiduV1.geocode Canned.platform v1 "abc" None None None
    [v1_payload (PInt 39) (PInt 116)]
  = @Outcome Canned.platform _ []
      [url_log "BaiduV1" "geocode"
         (BaiduV1.api v1 ++ "?" ++ "output=json&key=k&address=abc");
       Request (BaiduV1.api v1 ++ "?" ++ "output=json&key=k&address=abc")
         PNone;
       Log DEBUG (v1_payload (PInt 39) (PInt 116)) []]
      (result (@BaiduV1._parse_json Canned.platform v1
                 (v1_payload (PInt 39) (PInt 116)) None [])).
Proof.
  assert (Hqs : (params ← BaiduV1.geocode_params v1 "abc" PNone;
                 Canned.encode params)
                = inr "output=json&key=k&address=abc")
    by (vm_compute; reflexivity).
  split; [exact Hqs|]. split; [reflexivity|].
  exact (proj1 (@call_is_parse_of_response Canned.platform v1 v2 "abc"
                  (PointText "0,0") None None None None
                  [v1_payload (PInt 39) (PInt 116)]
                  "output=json&key=k&address=abc" []
                  (v1_payload (PInt 39) (PInt 116)))
           Hqs eq_refl).
Defined.

Lemma v2_params_rename_v1_witness :
  Geocoder.format_string (BaiduV2.base v2)
    = Geocoder.format_string (BaiduV1.base v1) ∧
  BaiduV2.ak v2 = BaiduV1.key v1 ∧
  BaiduV2.geocode_params v2 "abc" (PStr "sh")
  = inr (<["ak" := PStr "k"]>
           (delete "key"
              {[ "city" := PStr "sh"; "key" := PStr "k";
                 "output" := PStr "json"; "address" := PStr "abc" ]})).
Proof.
  split; [reflexivity|]. split; [reflexivity|].
  exact (proj1 (@v2_params_rename_v1 Canned.platform v1 v2 "abc"
                  (PointText "0,0") (PStr "sh") PNone eq_refl eq_refl)).
Defined.

(** ** Which fields of a response are read *)

Section FieldsRead.
Context `{Platform}.

(** X20.  The first version reads two fields of a response and no
    other: responses that agree on [result] and on [status] parse to the
    same result, raw payload included. *)
Theorem v1_parse_json_reads_result_and_status self d d' eo w :
  d !! "result" = d' !! "result" →
  d !! "status" = d' !! "status" →
  result (BaiduV1._parse_json self (PDict d) eo w)
  = result (BaiduV1._parse_json self (PDict d') eo w).
Proof.
  intros Hr Hs. rewrite !v1_parse_json_run.
  unfold result, get. rewrite Hr, Hs.
  by rewrite (v1_parse_result_only_result d d' Hr).
Qed.

(** X21.  The second version never reads the entries of [results]: it
    only measures the collection.  With any other non-empty collection
    in its place, a response parses to the same result (label, pair or
    error), the raw payload being the new response. *)
Theorem v2_parse_json_never_reads_entries self d entries eo w n m :
  len (collection "results" d) = inr (S n) →
  len entries = inr (S m) →
  result (BaiduV2._parse_json self (PDict (<["results" := entries]> d)) eo w)
  = with_raw (PDict (<["results" := entries]> d))
      (result (BaiduV2._parse_json self (PDict d) eo w)).
Proof.
  intros Hlen Hentries.
  rewrite (v2_parse_json_nonempty _ d _ _ n Hlen).
  rewrite (v2_parse_json_nonempty _ (<["results" := entries]> d) _ _ m)
    by (unfold collection; by rewrite lookup_insert_eq).
  rewrite (v2_parse_result_fields d (<["results" := entries]> d))
    by (by rewrite lookup_insert_ne).
  by destruct (BaiduV2.parse_result (PDict d)).
Qed.

End FieldsRead.

Lemma v1_parse_json_reads_result_and_status_witness :
  v1_dict (PInt 39) (PInt 116) !! "result"
    = (<["request_id" := PInt 7]> (v1_dict (PInt 39) (PInt 116))) !! "result" ∧
  v1_dict (PInt 39) (PInt 116) !! "status"
    = (<["request_id" := PInt 7]> (v1_dict (PInt 39) (PInt 116))) !! "status" ∧
  result (@BaiduV1._parse_json Canned.platform v1
            (PDict (v1_dict (PInt 39) (PInt 116))) None [])
  = result (@BaiduV1._parse_json Canned.platform v1
              (PDict (<["request_id" := PInt 7]>
                        (v1_dict (PInt 39) (PInt 116)))) None []).
Proof.
  assert (Hr : v1_dict (PInt 39) (PInt 116) !! "result"
               = (<["request_id" := PInt 7]> (v1_dict (PInt 39) (PInt 116)))
                 !! "result") by (vm_compute; reflexivity).
  assert (Hs : v1_dict (PInt 39) (PInt 116) !! "status"
               = (<["request_id" := PInt 7]> (v1_dict (PInt 39) (PInt 116)))
                 !! "status") by (vm_compute; reflexivity).
  split; [exact Hr|]. split; [exact Hs|].
  exact (@v1_parse_json_reads_result_and_status Canned.platform v1 _ _
           None [] Hr Hs).
Defined.

Lemma v2_parse_json_never_reads_entries_witness :
  len (collection "results" (v2_flat_dict (PFloat f39_5) (PFloat f116_25)))
    = inr 1%nat ∧
  len (PList [v2_entry (PInt 1) (PInt 2); PStr "anything"]) = inr 2%nat ∧
  result (@BaiduV2._parse_json Canned.platform v2
            (PDict (<["results" :=
                        PList [v2_entry (PInt 1) (PInt 2); PStr "anything"]]>
                      (v2_flat_dict (PFloat f39_5) (PFloat f116_25))))
            None [])
  = with_raw
      (PDict (<["results" :=
                  PList [v2_entry (PInt 1) (PInt 2); PStr "anything"]]>
                (v2_flat_dict (PFloat f39_5) (PFloat f116_25))))
      (result (@BaiduV2._parse_json Canned.platform v2
                 (PDict (v2_flat_dict (PFloat f39_5) (PFloat f116_25)))
                 None [])).
Proof.
  assert (Hlen : len (collection "results"
                        (v2_flat_dict (PFloat f39_5) (PFloat f116_25)))
                 = inr 1%nat) by (vm_compute; reflexivity).
  split; [exact Hlen|]. split; [reflexivity|].
  exact (@v2_parse_json_never_reads_entries Canned.platform v2
           (v2_flat_dict (PFloat f39_5) (PFloat f116_25))
           (PList [v2_entry (PInt 1) (PInt 2); PStr "anything"]) None []
           0%nat 1%nat Hlen eq_refl).
Defined.
